(** * RemoteDesktopClient: the connection life-cycle service

    A shallow embedding of [src/services/remote-desktop-client.service.ts]
    and the properties of its state machine, clipboard path, configuration
    builder and event channels.

    The class talks to three collaborators that live outside the file:
    the Guacamole protocol engine ([Client], [Tunnel], [StringReader]),
    the reactive channels of rxjs ([BehaviorSubject], [ReplaySubject]) and
    the query-string builder of [@angular/http] ([URLSearchParams]).  Calls
    into the engine are recorded, in program order, on a trace, and what the
    engine does before such a call returns (the state changes it reports
    through its slots, an exception) is given with the call; the channels
    and the query-string builder are small executable models. *)

From Stdlib Require Import List String Ascii ZArith NArith Bool Lia.
From Stdlib Require Import Numbers.DecimalString Sorting.Permutation.
Import ListNotations.

Local Open Scope string_scope.
Local Open Scope list_scope.

(* ================================================================== *)
(** ** JavaScript values and plain objects *)
(* ================================================================== *)

Module JS.

(** The values that reach the service: option values, raw state codes
    and clipboard text.  [Num n] stands for the integral numbers of the
    safe range, of magnitude below [2^53] (screen sizes, state codes, ports):
    the numbers that JavaScript writes as their plain decimal numeral. *)
Inductive value : Type :=
| Undefined
| Null
| Bool (b : bool)
| Num (n : Z)
| Str (s : string).

(** [if (v)]: ToBoolean. *)
Definition truthy (v : value) : bool :=
  match v with
  | Undefined => false
  | Null => false
  | Bool b => b
  | Num n => negb (n =? 0)%Z
  | Str s => negb (s =? "")
  end.

(** [a === b]. *)
Definition strict_eq (a b : value) : bool :=
  match a, b with
  | Undefined, Undefined => true
  | Null, Null => true
  | Bool x, Bool y => Bool.eqb x y
  | Num x, Num y => (x =? y)%Z
  | Str x, Str y => (x =? y)
  | _, _ => false
  end.

(** The decimal numeral of an integral number: [String(n)] for the numbers
    that [Num] stands for. *)
Definition Z_to_string (n : Z) : string :=
  NilZero.string_of_int (Z.to_int n).

(** [String(v)]. *)
Definition toString (v : value) : string :=
  match v with
  | Undefined => "undefined"
  | Null => "null"
  | Bool true => "true"
  | Bool false => "false"
  | Num n => Z_to_string n
  | Str s => s
  end.

(** A plain object: its own enumerable properties in creation order. *)
Definition object : Type := list (string * value).

Fixpoint get (o : object) (k : string) : option value :=
  match o with
  | [] => None
  | (k', v) :: rest => if k' =? k then Some v else get rest k
  end.

(** The object has an own property named [k]. *)
Definition owns (o : object) (k : string) : bool :=
  match get o k with
  | Some _ => true
  | None => false
  end.

(** How a computation without effects ends: with a value, or by throwing
    a [TypeError]. *)
Inductive outcome (A : Type) : Type :=
| Returns (a : A)
| Throws.
Arguments Returns {A}.
Arguments Throws {A}.

(** [o[k] = v]: an existing property keeps its place, a new one is
    created last. *)
Fixpoint set (o : object) (k : string) (v : value) : object :=
  match o with
  | [] => [(k, v)]
  | (k', v') :: rest =>
      if k' =? k then (k', v) :: rest else (k', v') :: set rest k v
  end.

(** *** Enumeration order

    [for (key in o)] and the spread [{...o}] visit the array-index keys
    first, in ascending numeric order, and then the other string keys in
    creation order. *)

Definition digit_of (c : ascii) : option N :=
  let n := N_of_ascii c in
  if ((48 <=? n) && (n <=? 57))%N then Some (n - 48)%N else None.

Fixpoint digits_value (s : string) (acc : N) : option N :=
  match s with
  | EmptyString => Some acc
  | String c rest =>
      match digit_of c with
      | Some d => digits_value rest (10 * acc + d)%N
      | None => None
      end
  end.

(** The canonical numeric strings below [2^32 - 1]. *)
Definition array_index (k : string) : option N :=
  match k with
  | EmptyString => None
  | String "0" EmptyString => Some 0%N
  | String "0" _ => None
  | _ =>
      match digits_value k 0 with
      | Some n => if (n <? 4294967295)%N then Some n else None
      | None => None
      end
  end.

Fixpoint insert_index (e : N * (string * value))
                      (l : list (N * (string * value)))
  : list (N * (string * value)) :=
  match l with
  | [] => [e]
  | e' :: rest =>
      if (fst e <? fst e')%N then e :: l else e' :: insert_index e rest
  end.

Fixpoint index_properties (o : object) : list (N * (string * value)) :=
  match o with
  | [] => []
  | (k, v) :: rest =>
      match array_index k with
      | Some n => insert_index (n, (k, v)) (index_properties rest)
      | None => index_properties rest
      end
  end.

Fixpoint named_properties (o : object) : object :=
  match o with
  | [] => []
  | (k, v) :: rest =>
      match array_index k with
      | Some _ => named_properties rest
      | None => (k, v) :: named_properties rest
      end
  end.

(** The own properties in enumeration order. *)
Definition entries (o : object) : object :=
  map snd (index_properties o) ++ named_properties o.

(** [{...base, ...extra}]: the properties of [extra] are assigned, in
    enumeration order, over those of [base]. *)
Definition spread (base extra : object) : object :=
  fold_left (fun acc kv => set acc (fst kv) (snd kv)) (entries extra) base.

End JS.

(* ================================================================== *)
(** ** Reactive channels *)
(* ================================================================== *)

Module Rx.

(** Subscribers are told apart by a number. *)
Definition observer : Type := nat.

(** What one observer has been handed so far, oldest first. *)
Definition received_by {A : Type} (o : observer)
           (log : list (observer * A)) : list A :=
  map snd (filter (fun p => Nat.eqb (fst p) o) log).

(** Hand [v] to every observer, in subscription order. *)
Definition broadcast {A : Type} (obs : list observer) (v : A)
  : list (observer * A) :=
  map (fun o => (o, v)) obs.

(** Modelled from the spec: rxjs's [BehaviorSubject] is imported, not
    defined, by the service.  Section 4.4: a multicast channel that is
    created with a current value, replaces it at every publication and
    hands the current value to a subscriber the moment it subscribes. *)
Record BehaviorSubject (A : Type) : Type := mkBehaviorSubject {
  bs_value : A;
  bs_observers : list observer;
  bs_log : list (observer * A)
}.
Arguments mkBehaviorSubject {A}.
Arguments bs_value {A}.
Arguments bs_observers {A}.
Arguments bs_log {A}.

(** [new BehaviorSubject(v)]. *)
Definition bs_new {A : Type} (v : A) : BehaviorSubject A :=
  mkBehaviorSubject v [] [].

(** [subject.next(v)]. *)
Definition bs_next {A : Type} (v : A) (s : BehaviorSubject A)
  : BehaviorSubject A :=
  mkBehaviorSubject v (bs_observers s)
                    (bs_log s ++ broadcast (bs_observers s) v).

(** What a subscriber is handed on subscribing. *)
Definition bs_replay {A : Type} (s : BehaviorSubject A) : list A :=
  [bs_value s].

(** [subject.subscribe(o)]. *)
Definition bs_subscribe {A : Type} (o : observer) (s : BehaviorSubject A)
  : BehaviorSubject A :=
  mkBehaviorSubject (bs_value s) (bs_observers s ++ [o])
                    (bs_log s ++ map (fun v => (o, v)) (bs_replay s)).

(** The last [n] elements of a list. *)
Definition take_last {A : Type} (n : nat) (l : list A) : list A :=
  skipn (List.length l - n) l.

(** Modelled from the spec: rxjs's [ReplaySubject] is imported, not
    defined, by the service.  Section 4.4: a multicast channel that starts
    empty, keeps the most recent publications up to its replay depth and
    hands them to a subscriber the moment it subscribes. *)
Record ReplaySubject (A : Type) : Type := mkReplaySubject {
  rs_bufferSize : nat;
  rs_buffer : list A;
  rs_observers : list observer;
  rs_log : list (observer * A)
}.
Arguments mkReplaySubject {A}.
Arguments rs_bufferSize {A}.
Arguments rs_buffer {A}.
Arguments rs_observers {A}.
Arguments rs_log {A}.

(** [new ReplaySubject(n)]. *)
Definition rs_new {A : Type} (n : nat) : ReplaySubject A :=
  mkReplaySubject n [] [] [].

(** [subject.next(v)]. *)
Definition rs_next {A : Type} (v : A) (s : ReplaySubject A)
  : ReplaySubject A :=
  mkReplaySubject (rs_bufferSize s)
                  (take_last (rs_bufferSize s) (rs_buffer s ++ [v]))
                  (rs_observers s)
                  (rs_log s ++ broadcast (rs_observers s) v).

(** What a subscriber is handed on subscribing. *)
Definition rs_replay {A : Type} (s : ReplaySubject A) : list A :=
  rs_buffer s.

(** [subject.subscribe(o)]. *)
Definition rs_subscribe {A : Type} (o : observer) (s : ReplaySubject A)
  : ReplaySubject A :=
  mkReplaySubject (rs_bufferSize s) (rs_buffer s) (rs_observers s ++ [o])
                  (rs_log s ++ map (fun v => (o, v)) (rs_replay s)).

End Rx.

(* ================================================================== *)
(** ** Query strings *)
(* ================================================================== *)

Module Http.

(** Modelled from the spec: how [URLSearchParams] of [@angular/http]
    treats a parameter that is given no value ([null], [undefined]).
    Section 8 allows both readings: the key is left out, or it is written
    with an empty value. *)
Inductive NoValue : Type :=
| OmitKey
| EmptyValue.

(** The parameter map, in insertion order, one value per key. *)
Definition URLSearchParams : Type := list (string * string).

Definition empty : URLSearchParams := [].

Fixpoint delete (p : URLSearchParams) (k : string) : URLSearchParams :=
  match p with
  | [] => []
  | (k', v) :: rest =>
      if k' =? k then delete rest k else (k', v) :: delete rest k
  end.

Fixpoint put (p : URLSearchParams) (k v : string) : URLSearchParams :=
  match p with
  | [] => [(k, v)]
  | (k', v') :: rest =>
      if k' =? k then (k', v) :: rest else (k', v') :: put rest k v
  end.

(** Modelled from the spec: [params.set(key, value)] of the absent
    [URLSearchParams].  Section 4.1: each key occurs once, a later value
    for a key replaces the earlier one in place. *)
Definition set (nv : NoValue) (p : URLSearchParams) (k : string)
           (v : JS.value) : URLSearchParams :=
  match v with
  | JS.Undefined | JS.Null =>
      match nv with
      | OmitKey => delete p k
      | EmptyValue => put p k ""
      end
  | _ => put p k (JS.toString v)
  end.

Definition hex_digit (n : N) : ascii :=
  if (n <? 10)%N then ascii_of_N (48 + n) else ascii_of_N (55 + n).

(** The characters a query component keeps as they are: letters, digits
    and [- _ . ! ~ * ' ( )]. *)
Definition unreserved (c : ascii) : bool :=
  let n := N_of_ascii c in
  ((65 <=? n) && (n <=? 90) || (97 <=? n) && (n <=? 122)
   || (48 <=? n) && (n <=? 57)
   || (n =? 45) || (n =? 95) || (n =? 46) || (n =? 33) || (n =? 126)
   || (n =? 42) || (n =? 39) || (n =? 40) || (n =? 41))%N.

(** Modelled from the spec: the escaping done by the absent
    [URLSearchParams].  Section 4.1: values are percent-escaped per the
    standard URL-query rules; every byte outside the unreserved set
    becomes [%XX]. *)
Fixpoint encode (s : string) : string :=
  match s with
  | EmptyString => EmptyString
  | String c rest =>
      if unreserved c then String c (encode rest)
      else
        let n := N_of_ascii c in
        String "%" (String (hex_digit (n / 16)) (String (hex_digit (n mod 16))
                   (encode rest)))
  end.

(** Modelled from the spec: [params.toString()] of the absent
    [URLSearchParams].  Section 4.1: an ordered query string,
    [key=value] pairs in insertion order joined by [&]. *)
Definition toString (p : URLSearchParams) : string :=
  String.concat "&"
    (map (fun kv => (encode (fst kv) ++ "=" ++ encode (snd kv))%string) p).

End Http.

(* ================================================================== *)
(** ** The service *)
(* ================================================================== *)

(** [RemoteDesktopClient.STATE]. *)
Inductive STATE : Type :=
| IDLE
| CONNECTING
| WAITING
| CONNECTED
| DISCONNECTED
| CLIENT_ERROR
| TUNNEL_ERROR.

(** The string constant behind each member of [STATE]. *)
Definition STATE_name (s : STATE) : string :=
  match s with
  | IDLE => "IDLE"
  | CONNECTING => "CONNECTING"
  | WAITING => "WAITING"
  | CONNECTED => "CONNECTED"
  | DISCONNECTED => "DISCONNECTED"
  | CLIENT_ERROR => "CLIENT_ERROR"
  | TUNNEL_ERROR => "TUNNEL_ERROR"
  end.

(** [window.screen]. *)
Record Screen : Type := mkScreen {
  width : Z;
  height : Z
}.

(** A stream handle handed over by the engine. *)
Definition stream : Type := nat.

(** What the service does to its surroundings, in program order: the
    publications on its two channels and the calls into the protocol
    engine. *)
Inductive Effect : Type :=
| StateNext (s : STATE)
| ClipboardNext (v : JS.value)
| ClientConnect (configuration : string)
| ClientDisconnect
| ClientSetClipboard (v : JS.value).

(** The instance: its fields, the [data] accumulators of the string
    readers it has attached to streams, whether the callback slots of the
    engine and the tunnel are bound, and the trace of effects. *)
Record RemoteDesktopClient : Type := mkClient {
  onStateChange : Rx.BehaviorSubject STATE;
  onClipboard : Rx.ReplaySubject JS.value;
  options : JS.object;
  state : STATE;
  bound : bool;
  readers : list (stream * string);
  trace : list Effect
}.

Definition with_onStateChange (b : Rx.BehaviorSubject STATE)
           (c : RemoteDesktopClient) : RemoteDesktopClient :=
  mkClient b (onClipboard c) (options c) (state c) (bound c) (readers c)
           (trace c).

Definition with_onClipboard (r : Rx.ReplaySubject JS.value)
           (c : RemoteDesktopClient) : RemoteDesktopClient :=
  mkClient (onStateChange c) r (options c) (state c) (bound c) (readers c)
           (trace c).

Definition with_state (s : STATE) (c : RemoteDesktopClient)
  : RemoteDesktopClient :=
  mkClient (onStateChange c) (onClipboard c) (options c) s (bound c)
           (readers c) (trace c).

Definition with_bound (b : bool) (c : RemoteDesktopClient)
  : RemoteDesktopClient :=
  mkClient (onStateChange c) (onClipboard c) (options c) (state c) b
           (readers c) (trace c).

Definition with_readers (r : list (stream * string))
           (c : RemoteDesktopClient) : RemoteDesktopClient :=
  mkClient (onStateChange c) (onClipboard c) (options c) (state c) (bound c)
           r (trace c).

(** Record one more effect. *)
Definition emit (e : Effect) (c : RemoteDesktopClient)
  : RemoteDesktopClient :=
  mkClient (onStateChange c) (onClipboard c) (options c) (state c) (bound c)
           (readers c) (trace c ++ [e]).

(** [new RemoteDesktopClient(url, options)]: the field initialisers and
    the constructor body. *)
Definition constructor (url : string) (opts : JS.object)
  : RemoteDesktopClient :=
  mkClient (Rx.bs_new CONNECTING) (Rx.rs_new 1) opts IDLE false [] [].

Definition getState (c : RemoteDesktopClient) : STATE := state c.

Definition STATE_eqb (a b : STATE) : bool :=
  (STATE_name a =? STATE_name b).

Definition isState (s : STATE) (c : RemoteDesktopClient) : bool :=
  STATE_eqb s (state c).

(** [this.onStateChange.next(v)]. *)
Definition onStateChange_next (v : STATE) (c : RemoteDesktopClient)
  : RemoteDesktopClient :=
  emit (StateNext v) (with_onStateChange (Rx.bs_next v (onStateChange c)) c).

(** [this.onClipboard.next(v)]. *)
Definition onClipboard_next (v : JS.value) (c : RemoteDesktopClient)
  : RemoteDesktopClient :=
  emit (ClipboardNext v) (with_onClipboard (Rx.rs_next v (onClipboard c)) c).

Definition setState (s : STATE) (c : RemoteDesktopClient)
  : RemoteDesktopClient :=
  let c1 := with_state s c in
  onStateChange_next (state c1) c1.

(** *** Clipboard *)

Fixpoint reader_data (rs : list (stream * string)) (st : stream)
  : option string :=
  match rs with
  | [] => None
  | (st', d) :: rest => if Nat.eqb st' st then Some d else reader_data rest st
  end.

Fixpoint reader_drop (rs : list (stream * string)) (st : stream)
  : list (stream * string) :=
  match rs with
  | [] => []
  | (st', d) :: rest =>
      if Nat.eqb st' st then reader_drop rest st
      else (st', d) :: reader_drop rest st
  end.

(** A reader's accumulator is (re)bound for its stream. *)
Definition reader_store (rs : list (stream * string)) (st : stream)
           (d : string) : list (stream * string) :=
  (st, d) :: reader_drop rs st.

(** [/^text\//.exec(mimetype)] finds a match. *)
Definition is_text (mimetype : string) : bool :=
  String.prefix "text/" mimetype.

Definition handleClipboard (st : stream) (mimetype : string)
           (c : RemoteDesktopClient) : RemoteDesktopClient :=
  if is_text mimetype
  then with_readers (reader_store (readers c) st "") c
  else c.

(** [reader.ontext = (text) => data += text]. *)
Definition ontext (st : stream) (text : string) (c : RemoteDesktopClient)
  : RemoteDesktopClient :=
  match reader_data (readers c) st with
  | Some data =>
      with_readers (reader_store (readers c) st (data ++ text)%string) c
  | None => c
  end.

(** [reader.onend = () => this.onClipboard.next(data)]. *)
Definition onend (st : stream) (c : RemoteDesktopClient)
  : RemoteDesktopClient :=
  match reader_data (readers c) st with
  | Some data => onClipboard_next (JS.Str data) c
  | None => c
  end.

Definition sendClipboard (text : JS.value) (c : RemoteDesktopClient)
  : RemoteDesktopClient :=
  if JS.truthy text
  then emit (ClientSetClipboard text) (onClipboard_next text c)
  else c.

(** *** Configuration *)

Definition calculateDimensions (screen : Screen) : Screen :=
  mkScreen (width screen) (height screen).

(** The loop asks [options.hasOwnProperty(key)] at every key.  An object
    that owns a property named [hasOwnProperty] answers with that property,
    which is no function: the first turn of the loop throws.  Any other
    object answers with the inherited method, true at each own key. *)
Definition buildQueryString (nv : Http.NoValue) (opts : JS.object)
  : JS.outcome string :=
  if JS.owns opts "hasOwnProperty"
  then JS.Throws
  else
    JS.Returns
      (Http.toString
         (fold_left (fun params kv => Http.set nv params (fst kv) (snd kv))
                    (JS.entries opts) Http.empty)).

(** The option set before the caller's options are spread over it. *)
Definition defaults (dimensions : Screen) : JS.object :=
  [ ("ID", JS.Null);
    ("WIDTH", JS.Num (width dimensions));
    ("HEIGHT", JS.Num (height dimensions));
    ("AUDIO", JS.Str "audio/L16");
    ("IMAGE", JS.Str "image/png") ].

Definition mergedOptions (screen : Screen) (c : RemoteDesktopClient)
  : JS.object :=
  let dimensions := calculateDimensions screen in
  JS.spread (defaults dimensions) (options c).

Definition buildConfiguration (nv : Http.NoValue) (screen : Screen)
           (c : RemoteDesktopClient) : JS.outcome string :=
  buildQueryString nv (mergedOptions screen c).

Definition bindEventHandlers (c : RemoteDesktopClient)
  : RemoteDesktopClient :=
  with_bound true c.

(** *** State changes *)

Definition handleClientStateChange (code : JS.value)
           (c : RemoteDesktopClient) : RemoteDesktopClient :=
  match code with
  | JS.Num 0 => setState IDLE c
  | JS.Num 1 => c
  | JS.Num 2 => setState WAITING c
  | JS.Num 3 => setState CONNECTED c
  | JS.Num 4 => c
  | JS.Num 5 => c
  | _ => c
  end.

Definition handleTunnelStateChange (code : JS.value)
           (c : RemoteDesktopClient) : RemoteDesktopClient :=
  match code with
  | JS.Num 1 => setState CONNECTING c
  | JS.Num 2 => setState DISCONNECTED c
  | _ => c
  end.

(** A slot of the engine or the tunnel holds a handler only once
    [bindEventHandlers] has run. *)
Definition slot (h : RemoteDesktopClient -> RemoteDesktopClient)
           (c : RemoteDesktopClient) : RemoteDesktopClient :=
  if bound c then h c else c.

(** *** Calls into the engine

    [client.connect] and [client.disconnect] are not over when they are
    made.  Before such a call returns, the engine may report state changes,
    its own and the tunnel's, through the slots (disconnecting an open
    connection closes the tunnel, which reports code 2), and the call may
    end by raising.  What the engine does inside a call is not the
    service's to decide: it is given with the call. *)

(** A state change reported through [client.onstatechange] or
    [tunnel.onstatechange]. *)
Inductive Report : Type :=
| ClientReport (code : JS.value)
| TunnelReport (code : JS.value).

(** What the engine does inside one call: its reports, in order, and
    whether the call then raises. *)
Record Reaction : Type := mkReaction {
  reports : list Report;
  raises : bool
}.

(** The engine reports nothing and returns. *)
Definition quiet : Reaction := mkReaction [] false.

(** How a method of the service ends (by returning, or by letting an
    exception through) and the instance it leaves behind. *)
Record Outcome : Type := mkOutcome {
  raised : bool;
  after : RemoteDesktopClient
}.

(** A report reaches the handler that sits in its slot. *)
Definition report (c : RemoteDesktopClient) (r : Report)
  : RemoteDesktopClient :=
  match r with
  | ClientReport code => slot (handleClientStateChange code) c
  | TunnelReport code => slot (handleTunnelStateChange code) c
  end.

(** A call into the engine: the call is made, the reports of the engine
    are handled as they come, and the call returns or raises. *)
Definition engine_call (e : Effect) (r : Reaction)
           (c : RemoteDesktopClient) : Outcome :=
  mkOutcome (raises r) (fold_left report (reports r) (emit e c)).

(** *** Connection *)

(** [this.client.disconnect()], with nothing around it. *)
Definition disconnect (r : Reaction) (c : RemoteDesktopClient) : Outcome :=
  engine_call ClientDisconnect r c.

(** The three statements of [connect] in turn; an exception ends the
    method where it is raised. *)
Definition connect (nv : Http.NoValue) (screen : Screen) (r : Reaction)
           (c : RemoteDesktopClient) : Outcome :=
  match buildConfiguration nv screen c with
  | JS.Throws => mkOutcome true c
  | JS.Returns configuration =>
      let o := engine_call (ClientConnect configuration) r c in
      if raised o then o
      else mkOutcome false (bindEventHandlers (after o))
  end.

(** *** Errors *)

Definition handleClientError (status : JS.value) (r : Reaction)
           (c : RemoteDesktopClient) : Outcome :=
  let o := disconnect r c in
  if raised o then o
  else mkOutcome false (setState CLIENT_ERROR (after o)).

Definition handleTunnelError (status : JS.value) (r : Reaction)
           (c : RemoteDesktopClient) : Outcome :=
  let o := disconnect r c in
  if raised o then o
  else mkOutcome false (setState TUNNEL_ERROR (after o)).

(** *** What the surroundings can do to an instance *)

(** The caller's method calls and subscriptions, the callbacks fired by
    the engine and the tunnel through their slots, and the callbacks fired
    by a string reader.  Where an event leads to a call into the engine, it
    carries what the engine does inside that call. *)
Inductive Event : Type :=
| Connect (screen : Screen) (r : Reaction)
| Disconnect (r : Reaction)
| SendClipboard (text : JS.value)
| ClientOnError (status : JS.value) (r : Reaction)
| ClientOnStateChange (code : JS.value)
| ClientOnClipboard (st : stream) (mimetype : string)
| TunnelOnError (status : JS.value) (r : Reaction)
| TunnelOnStateChange (code : JS.value)
| ReaderOnText (st : stream) (text : string)
| ReaderOnEnd (st : stream)
| SubscribeState (o : Rx.observer)
| SubscribeClipboard (o : Rx.observer).

(** The instance after the event, however the call or callback ended. *)
Definition step (nv : Http.NoValue) (c : RemoteDesktopClient) (e : Event)
  : RemoteDesktopClient :=
  match e with
  | Connect screen r => after (connect nv screen r c)
  | Disconnect r => after (disconnect r c)
  | SendClipboard text => sendClipboard text c
  | ClientOnError status r =>
      slot (fun c' => after (handleClientError status r c')) c
  | ClientOnStateChange code => slot (handleClientStateChange code) c
  | ClientOnClipboard st mimetype => slot (handleClipboard st mimetype) c
  | TunnelOnError status r =>
      slot (fun c' => after (handleTunnelError status r c')) c
  | TunnelOnStateChange code => slot (handleTunnelStateChange code) c
  | ReaderOnText st text => ontext st text c
  | ReaderOnEnd st => onend st c
  | SubscribeState o =>
      with_onStateChange (Rx.bs_subscribe o (onStateChange c)) c
  | SubscribeClipboard o =>
      with_onClipboard (Rx.rs_subscribe o (onClipboard c)) c
  end.

Definition run (nv : Http.NoValue) (es : list Event)
           (c : RemoteDesktopClient) : RemoteDesktopClient :=
  fold_left (step nv) es c.

(** The states published on the state channel, oldest first. *)
Definition published_states (t : list Effect) : list STATE :=
  flat_map (fun e => match e with StateNext s => [s] | _ => [] end) t.

(** The payloads published on the clipboard channel, oldest first. *)
Definition published_clipboard (t : list Effect) : list JS.value :=
  flat_map (fun e => match e with ClipboardNext v => [v] | _ => [] end) t.

(** A run of raw client-engine codes through the state-change handler. *)
Definition handleClientStateChanges (codes : list JS.value)
           (c : RemoteDesktopClient) : RemoteDesktopClient :=
  fold_left (fun acc code => handleClientStateChange code acc) codes c.

(** What arrives on an inbound stream. *)
Inductive StreamEvent : Type :=
| Text (chunk : string)
| End.

Definition deliver (st : stream) (c : RemoteDesktopClient) (e : StreamEvent)
  : RemoteDesktopClient :=
  match e with
  | Text chunk => ontext st chunk c
  | End => onend st c
  end.

(** A stream is announced with its MIME type and then read. *)
Definition receiveStream (st : stream) (mimetype : string)
           (es : list StreamEvent) (c : RemoteDesktopClient)
  : RemoteDesktopClient :=
  fold_left (deliver st) es (handleClipboard st mimetype c).

(** *** The transition table of the specification (section 4.3) *)

(** The application state a raw client-engine code maps to, if any:
    0 to Idle, 2 to Waiting, 3 to Connected; 1, 4, 5 and every other code
    to nothing. *)
Definition client_table (code : JS.value) : option STATE :=
  if JS.strict_eq code (JS.Num 0) then Some IDLE
  else if JS.strict_eq code (JS.Num 2) then Some WAITING
  else if JS.strict_eq code (JS.Num 3) then Some CONNECTED
  else None.

(** The application state a raw tunnel code maps to, if any: 1 to
    Connecting, 2 to Disconnected. *)
Definition tunnel_table (code : JS.value) : option STATE :=
  if JS.strict_eq code (JS.Num 1) then Some CONNECTING
  else if JS.strict_eq code (JS.Num 2) then Some DISCONNECTED
  else None.

Definition table_states (table : JS.value -> option STATE)
           (codes : list JS.value) : list STATE :=
  flat_map (fun code => match table code with Some s => [s] | None => [] end)
           codes.

(** *** What a channel should replay *)

(** The most recent element of a history, or [d] while there is none. *)
Definition latest_or {A : Type} (d : A) (history : list A) : A :=
  match rev history with
  | [] => d
  | x :: _ => x
  end.

(** The most recent element of a history alone, or nothing while there is
    none. *)
Definition latest {A : Type} (history : list A) : list A :=
  match rev history with
  | [] => []
  | x :: _ => [x]
  end.

(** The fields of an instance agree with what it has published: the
    queried state is the last published state ([IDLE] before the first),
    the state channel holds the last published state ([CONNECTING] before
    the first), and the clipboard channel, of depth one, holds the last
    published payload. *)
Definition consistent (c : RemoteDesktopClient) : Prop :=
  state c = latest_or IDLE (published_states (trace c)) /\
  Rx.bs_value (onStateChange c)
    = latest_or CONNECTING (published_states (trace c)) /\
  Rx.rs_bufferSize (onClipboard c) = 1 /\
  Rx.rs_buffer (onClipboard c) = latest (published_clipboard (trace c)).

(** *** Reading a run of events *)

(** The callbacks that reach the instance through a slot of the engine or
    of the tunnel. *)
Definition through_slot (e : Event) : bool :=
  match e with
  | ClientOnError _ _ => true
  | ClientOnStateChange _ => true
  | ClientOnClipboard _ _ => true
  | TunnelOnError _ _ => true
  | TunnelOnStateChange _ => true
  | _ => false
  end.

(** A [connect] inside which the engine's call returns. *)
Definition returning_connect (e : Event) : bool :=
  match e with
  | Connect _ r => negb (raises r)
  | _ => false
  end.

(** The state a report asks for, by the tables. *)
Definition report_state (r : Report) : option STATE :=
  match r with
  | ClientReport code => client_table code
  | TunnelReport code => tunnel_table code
  end.

(** The states the reports of one engine call ask for, in order, where
    the slots are bound; none where they are not. *)
Definition reported_states (b : bool) (rs : list Report) : list STATE :=
  if b
  then flat_map (fun r => match report_state r with
                          | Some s => [s]
                          | None => []
                          end) rs
  else [].

(** The states one event asks for, read off the event alone, given whether
    the slots are bound ([b]) and whether the options make the building of
    the configuration throw ([t]). *)
Definition event_states (b t : bool) (e : Event) : list STATE :=
  match e with
  | Connect _ r => if t then [] else reported_states b (reports r)
  | Disconnect r => reported_states b (reports r)
  | ClientOnError _ r =>
      if b
      then reported_states b (reports r)
           ++ (if raises r then [] else [CLIENT_ERROR])
      else []
  | ClientOnStateChange code =>
      if b
      then match client_table code with Some s => [s] | None => [] end
      else []
  | TunnelOnError _ r =>
      if b
      then reported_states b (reports r)
           ++ (if raises r then [] else [TUNNEL_ERROR])
      else []
  | TunnelOnStateChange code =>
      if b
      then match tunnel_table code with Some s => [s] | None => [] end
      else []
  | _ => []
  end.

(** The states a run of events asks for. *)
Fixpoint expected_states (b t : bool) (es : list Event) : list STATE :=
  match es with
  | [] => []
  | e :: rest =>
      event_states b t e
      ++ expected_states (b || negb t && returning_connect e) t rest
  end.

(** The events that ask for no state: the calls and callbacks that are no
    callback of the engine or the tunnel and lead to no report of them. *)
Definition state_silent (e : Event) : bool :=
  match e with
  | Connect _ r => match reports r with [] => true | _ => false end
  | Disconnect r => match reports r with [] => true | _ => false end
  | SendClipboard _ => true
  | ReaderOnText _ _ => true
  | ReaderOnEnd _ => true
  | SubscribeState _ => true
  | SubscribeClipboard _ => true
  | _ => false
  end.

(** The event announces the stream [st] to the instance. *)
Definition announces (st : stream) (e : Event) : bool :=
  match e with
  | ClientOnClipboard st' _ => Nat.eqb st' st
  | _ => false
  end.

(** The text chunks a run of events delivers on the stream [st]. *)
Fixpoint chunks_for (st : stream) (es : list Event) : list string :=
  match es with
  | [] => []
  | ReaderOnText st' text :: rest =>
      if Nat.eqb st' st then text :: chunks_for st rest
      else chunks_for st rest
  | _ :: rest => chunks_for st rest
  end.

(** The event announces some stream to the instance. *)
Definition is_announcement (e : Event) : bool :=
  match e with
  | ClientOnClipboard _ _ => true
  | _ => false
  end.

(** The payloads the caller's [sendClipboard] calls of a run let through. *)
Definition sent_payloads (es : list Event) : list JS.value :=
  flat_map (fun e => match e with
                     | SendClipboard text =>
                         if JS.truthy text then [text] else []
                     | _ => []
                     end) es.

(** A clipboard payload that is a string, or else a truthy value. *)
Definition text_or_truthy (v : JS.value) : bool :=
  match v with
  | JS.Str _ => true
  | _ => JS.truthy v
  end.

(** What an instance shows of its state after one more list [l] of
    publications. *)
Definition moved_by (l : list STATE) (c c' : RemoteDesktopClient) : Prop :=
  published_states (trace c') = published_states (trace c) ++ l /\
  state c' = latest_or (state c) l /\
  Rx.bs_value (onStateChange c')
    = latest_or (Rx.bs_value (onStateChange c)) l.

(** *** Reading a trace *)

(** The effect right before a position: the last one of what precedes it,
    or [p] where nothing precedes. *)
Definition effect_before (p : option Effect) (pre : list Effect)
  : option Effect :=
  match rev pre with
  | [] => p
  | e :: _ => Some e
  end.

(** Every effect of the trace is allowed, by [ok], to stand right after its
    predecessor. *)
Fixpoint adjacent (ok : option Effect -> Effect -> bool)
         (p : option Effect) (t : list Effect) : bool :=
  match t with
  | [] => true
  | e :: rest => ok p e && adjacent ok (Some e) rest
  end.

(** The two error states. *)
Definition is_error (s : STATE) : bool :=
  match s with
  | CLIENT_ERROR => true
  | TUNNEL_ERROR => true
  | _ => false
  end.

(** Reading a trace from the left: after an effect, whether the engine has
    been told to disconnect and nothing but states other than the error
    states has been published since. *)
Definition arm (armed : bool) (e : Effect) : bool :=
  match e with
  | ClientDisconnect => true
  | StateNext s => armed && negb (is_error s)
  | _ => false
  end.

Definition armed_after (armed : bool) (t : list Effect) : bool :=
  fold_left arm t armed.

(** Every error state of the trace is published while armed. *)
Fixpoint errors_armed (armed : bool) (t : list Effect) : bool :=
  match t with
  | [] => true
  | e :: rest =>
      match e with
      | StateNext s => if is_error s then armed else true
      | _ => true
      end
      && errors_armed (arm armed e) rest
  end.

(** A clipboard write to the engine stands only right after the publication
    of the same payload. *)
Definition write_after_echo (p : option Effect) (e : Effect) : bool :=
  match e with
  | ClientSetClipboard v =>
      match p with
      | Some (ClipboardNext w) => JS.strict_eq w v
      | _ => false
      end
  | _ => true
  end.

(** The keys that are no array index: enumerated in creation order, after
    the array-index keys. *)
Definition named_key (k : string) : bool :=
  match JS.array_index k with
  | Some _ => false
  | None => true
  end.

(** What one call or event can add to the trace. *)
Inductive step_effects : list Effect -> Prop :=
| effects_none : step_effects []
| effects_connect (configuration : string) (states : list STATE) :
    Forall (fun s => is_error s = false) states ->
    step_effects (ClientConnect configuration :: map StateNext states)
| effects_disconnect (states : list STATE) :
    Forall (fun s => is_error s = false) states ->
    step_effects (ClientDisconnect :: map StateNext states)
| effects_error (states : list STATE) (s : STATE) :
    Forall (fun s => is_error s = false) states ->
    step_effects (ClientDisconnect :: map StateNext states ++ [StateNext s])
| effects_state (s : STATE) :
    is_error s = false -> step_effects [StateNext s]
| effects_send (v : JS.value) :
    JS.truthy v = true ->
    step_effects [ClipboardNext v; ClientSetClipboard v]
| effects_stream (data : string) :
    step_effects [ClipboardNext (JS.Str data)].

(* ================================================================== *)
(** ** Properties *)
(* ================================================================== *)

(** *** Traces *)

Lemma published_states_app (t u : list Effect) :
  published_states (t ++ u) = published_states t ++ published_states u.
Proof. unfold published_states. apply flat_map_app. Qed.

Lemma published_clipboard_app (t u : list Effect) :
  published_clipboard (t ++ u) = published_clipboard t ++ published_clipboard u.
Proof. unfold published_clipboard. apply flat_map_app. Qed.

Lemma trace_setState (s : STATE) (c : RemoteDesktopClient) :
  trace (setState s c) = trace c ++ [StateNext s].
Proof. reflexivity. Qed.

Lemma state_setState (s : STATE) (c : RemoteDesktopClient) :
  state (setState s c) = s.
Proof. reflexivity. Qed.

Lemma latest_or_snoc {A : Type} (d x : A) (l : list A) :
  latest_or d (l ++ [x]) = x.
Proof. unfold latest_or. now rewrite rev_unit. Qed.

Lemma latest_or_app {A : Type} (d : A) (l m : list A) :
  latest_or d (l ++ m) = latest_or (latest_or d l) m.
Proof.
  unfold latest_or. rewrite rev_app_distr.
  destruct (rev m) as [ | x xs]; reflexivity.
Qed.

(** *** The client state-change handler *)

Lemma handleClientStateChange_table (code : JS.value)
      (c : RemoteDesktopClient) :
  handleClientStateChange code c =
  match client_table code with
  | Some s => setState s c
  | None => c
  end.
Proof.
  destruct code as [ | | b | n | s]; try reflexivity.
  destruct n as [ | p | p]; try reflexivity.
  destruct p as [[p|p| ]|[[p|p| ]|[p|p| ]| ]| ]; try reflexivity;
    destruct p; reflexivity.
Qed.

Lemma last_cons {A : Type} (l : list A) (x d : A) :
  last (x :: l) d = last l x.
Proof.
  revert x d. induction l as [ | y l IH]; intros x d.
  - reflexivity.
  - change (last (x :: y :: l) d) with (last (y :: l) d).
    rewrite (IH y d), (IH y x). reflexivity.
Qed.

(** The handler run over a sequence of codes adds to the trace exactly the
    publications the table prescribes. *)
Lemma trace_handleClientStateChanges (codes : list JS.value)
      (c : RemoteDesktopClient) :
  trace (handleClientStateChanges codes c) =
  trace c ++ map StateNext (table_states client_table codes).
Proof.
  revert c. induction codes as [ | code codes IH]; intros c.
  - simpl. now rewrite app_nil_r.
  - unfold handleClientStateChanges in *. simpl fold_left. rewrite IH.
    rewrite handleClientStateChange_table.
    unfold table_states. simpl flat_map.
    destruct (client_table code) as [s | ].
    + rewrite trace_setState, <- app_assoc. reflexivity.
    + reflexivity.
Qed.

Lemma state_handleClientStateChanges (codes : list JS.value)
      (c : RemoteDesktopClient) :
  state (handleClientStateChanges codes c) =
  last (table_states client_table codes) (state c).
Proof.
  revert c. induction codes as [ | code codes IH]; intros c.
  - reflexivity.
  - unfold handleClientStateChanges in *. simpl fold_left. rewrite IH.
    rewrite handleClientStateChange_table.
    unfold table_states. simpl flat_map.
    destruct (client_table code) as [s | ].
    + rewrite state_setState. simpl app. now rewrite last_cons.
    + reflexivity.
Qed.

Lemma published_states_StateNext (l : list STATE) :
  published_states (map StateNext l) = l.
Proof.
  induction l as [ | s l IH]; simpl; [reflexivity | now rewrite IH].
Qed.

(** C1.  For every sequence of raw client-engine codes handed to the client
    state-change handler, the states published on the state channel are
    those of the table of section 4.3, in order: code 0 publishes Idle,
    code 2 Waiting, code 3 Connected; codes 1, 4, 5 and every other value
    leave the instance as it is and publish nothing. *)
Theorem client_state_codes_follow_table
        (codes : list JS.value) (c : RemoteDesktopClient) :
  handleClientStateChange (JS.Num 0) c = setState IDLE c /\
  handleClientStateChange (JS.Num 2) c = setState WAITING c /\
  handleClientStateChange (JS.Num 3) c = setState CONNECTED c /\
  handleClientStateChange (JS.Num 1) c = c /\
  handleClientStateChange (JS.Num 4) c = c /\
  handleClientStateChange (JS.Num 5) c = c /\
  (forall code : JS.value,
      handleClientStateChange code c =
      match client_table code with
      | Some s => setState s c
      | None => c
      end) /\
  (forall s : STATE,
      trace (setState s c) = trace c ++ [StateNext s] /\
      state (setState s c) = s) /\
  trace (handleClientStateChanges codes c) =
    trace c ++ map StateNext (table_states client_table codes) /\
  published_states (trace (handleClientStateChanges codes c)) =
    published_states (trace c) ++ table_states client_table codes /\
  state (handleClientStateChanges codes c) =
    last (table_states client_table codes) (state c).
Proof.
  repeat split; try reflexivity.
  - intros code. apply handleClientStateChange_table.
  - apply trace_handleClientStateChanges.
  - rewrite trace_handleClientStateChanges, published_states_app.
    now rewrite published_states_StateNext.
  - apply state_handleClientStateChanges.
Qed.

Example client_table_run :
  table_states client_table
    [JS.Num 1; JS.Num 0; JS.Num 2; JS.Num 4; JS.Num 3; JS.Num 5; JS.Num 6;
     JS.Num (-1); JS.Str "3"; JS.Undefined; JS.Num 3]
  = [IDLE; WAITING; CONNECTED; CONNECTED].
Proof. reflexivity. Qed.

Example handleClientStateChanges_run :
  published_states
    (trace (handleClientStateChanges
              [JS.Num 1; JS.Num 0; JS.Num 2; JS.Num 4; JS.Num 3; JS.Num 5;
               JS.Num 6; JS.Num (-1); JS.Str "3"; JS.Undefined; JS.Num 3]
              (constructor "ws://host/tunnel" [])))
  = [IDLE; WAITING; CONNECTED; CONNECTED].
Proof. reflexivity. Qed.

(** *** The tunnel state-change handler *)

Lemma handleTunnelStateChange_table (code : JS.value)
      (c : RemoteDesktopClient) :
  handleTunnelStateChange code c =
  match tunnel_table code with
  | Some s => setState s c
  | None => c
  end.
Proof.
  destruct code as [ | | b | n | s]; try reflexivity.
  destruct n as [ | p | p]; try reflexivity.
  destruct p as [[p|p| ]|[p|p| ]| ]; try reflexivity; destruct p; reflexivity.
Qed.

(** C2.  A raw tunnel code handed to the tunnel state-change handler: code 1
    sets and publishes Connecting, code 2 sets and publishes Disconnected,
    every other value leaves the instance as it is and publishes nothing. *)
Theorem tunnel_state_codes_follow_table
        (code : JS.value) (c : RemoteDesktopClient) :
  (state (handleTunnelStateChange (JS.Num 1) c) = CONNECTING /\
   Rx.bs_value (onStateChange (handleTunnelStateChange (JS.Num 1) c))
     = CONNECTING /\
   trace (handleTunnelStateChange (JS.Num 1) c)
     = trace c ++ [StateNext CONNECTING]) /\
  (state (handleTunnelStateChange (JS.Num 2) c) = DISCONNECTED /\
   Rx.bs_value (onStateChange (handleTunnelStateChange (JS.Num 2) c))
     = DISCONNECTED /\
   trace (handleTunnelStateChange (JS.Num 2) c)
     = trace c ++ [StateNext DISCONNECTED]) /\
  (if JS.strict_eq code (JS.Num 1) || JS.strict_eq code (JS.Num 2)
   then True
   else handleTunnelStateChange code c = c) /\
  handleTunnelStateChange code c =
    match tunnel_table code with
    | Some s => setState s c
    | None => c
    end.
Proof.
  repeat split.
  - pose proof (handleTunnelStateChange_table code c) as H.
    unfold tunnel_table in H.
    destruct (JS.strict_eq code (JS.Num 1)); [exact I | ].
    destruct (JS.strict_eq code (JS.Num 2)); [exact I | exact H].
  - apply handleTunnelStateChange_table.
Qed.

Example handleTunnelStateChange_other :
  let c := constructor "ws://host/tunnel" [] in
  handleTunnelStateChange (JS.Num 0) c = c /\
  handleTunnelStateChange (JS.Num 3) c = c /\
  handleTunnelStateChange (JS.Str "1") c = c /\
  handleTunnelStateChange JS.Null c = c.
Proof. repeat split. Qed.

(** *** Reports of the engine *)

Lemma report_table (c : RemoteDesktopClient) (r : Report) :
  report c r =
  if bound c
  then match report_state r with
       | Some s => setState s c
       | None => c
       end
  else c.
Proof.
  destruct r as [code | code]; unfold report, slot, report_state;
    destruct (bound c); try reflexivity.
  - apply handleClientStateChange_table.
  - apply handleTunnelStateChange_table.
Qed.

(** Handling the reports of one engine call publishes the states they ask
    for and touches nothing else. *)
Lemma reports_handled (rs : list Report) :
  forall c : RemoteDesktopClient,
    trace (fold_left report rs c)
      = trace c ++ map StateNext (reported_states (bound c) rs) /\
    state (fold_left report rs c)
      = latest_or (state c) (reported_states (bound c) rs) /\
    Rx.bs_value (onStateChange (fold_left report rs c))
      = latest_or (Rx.bs_value (onStateChange c))
                  (reported_states (bound c) rs) /\
    bound (fold_left report rs c) = bound c /\
    onClipboard (fold_left report rs c) = onClipboard c /\
    readers (fold_left report rs c) = readers c /\
    options (fold_left report rs c) = options c.
Proof.
  induction rs as [ | r rs IH]; intros c.
  - cbn [fold_left]. unfold reported_states.
    destruct (bound c); cbn [flat_map map]; rewrite app_nil_r; repeat split.
  - cbn [fold_left].
    destruct (IH (report c r)) as (H1 & H2 & H3 & H4 & H5 & H6 & H7).
    rewrite H1, H2, H3, H4, H5, H6, H7. clear IH H1 H2 H3 H4 H5 H6 H7.
    rewrite report_table. unfold reported_states.
    destruct (bound c) eqn:Hb.
    + cbn [flat_map]. destruct (report_state r) as [s | ].
      * change (bound (setState s c)) with (bound c). rewrite Hb.
        rewrite trace_setState, <- app_assoc.
        cbn [app map]. change (s :: ?l) with ([s] ++ l).
        rewrite !latest_or_app. repeat split.
      * rewrite Hb. repeat split.
    + rewrite Hb. repeat split.
Qed.

(** *** Errors *)

(** C3.  An error signal from the client engine or from the tunnel, in any
    application state: the engine's disconnect is called first and, when
    that call returns, the error state (ClientError, TunnelError) is
    published last.  In between, the states are published that the engine
    reports through the bound handlers while its disconnect runs, and
    nothing else; where the engine reports nothing, the error state comes
    right after the call.  When the engine's disconnect raises, the handler
    raises with it and publishes no error state. *)
Theorem error_disconnects_then_publishes
        (status : JS.value) (r : Reaction) (c : RemoteDesktopClient) :
  trace (after (handleClientError status r c))
    = trace c
      ++ ClientDisconnect
         :: map StateNext (reported_states (bound c) (reports r))
      ++ (if raises r then [] else [StateNext CLIENT_ERROR]) /\
  trace (after (handleTunnelError status r c))
    = trace c
      ++ ClientDisconnect
         :: map StateNext (reported_states (bound c) (reports r))
      ++ (if raises r then [] else [StateNext TUNNEL_ERROR]) /\
  raised (handleClientError status r c) = raises r /\
  raised (handleTunnelError status r c) = raises r /\
  (if raises r
   then True
   else
     state (after (handleClientError status r c)) = CLIENT_ERROR /\
     state (after (handleTunnelError status r c)) = TUNNEL_ERROR /\
     Rx.bs_value (onStateChange (after (handleClientError status r c)))
       = CLIENT_ERROR /\
     Rx.bs_value (onStateChange (after (handleTunnelError status r c)))
       = TUNNEL_ERROR) /\
  trace (after (handleClientError status quiet c))
    = trace c ++ [ClientDisconnect; StateNext CLIENT_ERROR] /\
  trace (after (handleTunnelError status quiet c))
    = trace c ++ [ClientDisconnect; StateNext TUNNEL_ERROR].
Proof.
  unfold handleClientError, handleTunnelError, disconnect, engine_call.
  cbn [raised after].
  destruct (reports_handled (reports r) (emit ClientDisconnect c))
    as (H1 & _).
  change (bound (emit ClientDisconnect c)) with (bound c) in H1.
  change (trace (emit ClientDisconnect c))
    with (trace c ++ [ClientDisconnect]) in H1.
  rewrite <- app_assoc in H1. cbn [app] in H1.
  assert (forall s : STATE,
             trace (setState s (emit ClientDisconnect c))
             = trace c ++ [ClientDisconnect; StateNext s]) as Hquiet.
  { intros s. rewrite trace_setState. unfold emit. cbn [trace].
    now rewrite <- app_assoc. }
  cbn [quiet raises reports fold_left].
  destruct (raises r); cbn [raised after].
  - rewrite H1, app_nil_r, !Hquiet. repeat split.
  - rewrite !Hquiet, !trace_setState, H1, <- !app_assoc. repeat split.
Qed.

(** C3, as first stated, fails.  The instance is connected and the engine,
    told to disconnect, closes the tunnel before it returns (it reports its
    own code 4, the tunnel's code 2 and its own code 5): Disconnected is
    published between the call of the disconnect and the publication of
    ClientError. *)
Lemma error_publishes_disconnected_in_between :
  trace (after (handleClientError
                  (JS.Num 519)
                  (mkReaction [ClientReport (JS.Num 4);
                               TunnelReport (JS.Num 2);
                               ClientReport (JS.Num 5)] false)
                  (after (connect Http.OmitKey (mkScreen 1024 768) quiet
                                  (constructor "ws://host/tunnel" [])))))
  = trace (after (connect Http.OmitKey (mkScreen 1024 768) quiet
                          (constructor "ws://host/tunnel" [])))
    ++ [ClientDisconnect; StateNext DISCONNECTED; StateNext CLIENT_ERROR] /\
  ~ (forall (status : JS.value) (r : Reaction) (c : RemoteDesktopClient),
        trace (after (handleClientError status r c))
        = trace c ++ [ClientDisconnect; StateNext CLIENT_ERROR]).
Proof.
  split; [reflexivity | ].
  intros H.
  specialize (H (JS.Num 519)
                (mkReaction [ClientReport (JS.Num 4);
                             TunnelReport (JS.Num 2);
                             ClientReport (JS.Num 5)] false)
                (after (connect Http.OmitKey (mkScreen 1024 768) quiet
                                (constructor "ws://host/tunnel" [])))).
  discriminate H.
Qed.

(** *** Outbound clipboard *)

Lemma truthy_Str (s : string) : s <> "" -> JS.truthy (JS.Str s) = true.
Proof.
  intros H. simpl.
  destruct (String.eqb_spec s ""); [contradiction | reflexivity].
Qed.

(** C6.  [sendClipboard] with a non-empty text publishes the text on the
    clipboard channel and then calls the engine's setClipboard with the same
    text, two effects in this order; with an empty or absent text it leaves
    the instance, its clipboard channel and its trace as they are. *)
Theorem sendClipboard_effects (s : string) (c : RemoteDesktopClient)
        (Hs : s <> "") :
  trace (sendClipboard (JS.Str s) c)
    = trace c ++ [ClipboardNext (JS.Str s); ClientSetClipboard (JS.Str s)] /\
  onClipboard (sendClipboard (JS.Str s) c)
    = Rx.rs_next (JS.Str s) (onClipboard c) /\
  state (sendClipboard (JS.Str s) c) = state c /\
  onStateChange (sendClipboard (JS.Str s) c) = onStateChange c /\
  sendClipboard (JS.Str "") c = c /\
  sendClipboard JS.Undefined c = c /\
  sendClipboard JS.Null c = c.
Proof.
  unfold sendClipboard. rewrite (truthy_Str s Hs).
  unfold onClipboard_next, emit. simpl.
  rewrite <- app_assoc. repeat split.
Qed.

Lemma sendClipboard_effects_witness :
  let c := constructor "ws://host/tunnel" [] in
  "Hello" <> "" /\
  trace (sendClipboard (JS.Str "Hello") c)
    = trace c ++ [ClipboardNext (JS.Str "Hello");
                  ClientSetClipboard (JS.Str "Hello")].
Proof.
  split; [discriminate | ].
  apply (sendClipboard_effects "Hello" (constructor "ws://host/tunnel" [])).
  discriminate.
Defined.

(** *** Disconnecting *)

(** C7.  [disconnect] is defined in every application state and does
    nothing but call the engine's disconnect: it raises exactly when that
    call raises; the application state and the state channel change only
    by the states the engine reports through the bound handlers while the
    call runs, and the clipboard channel not at all.  Where the engine
    reports nothing, state and channels are as before and nothing is
    published. *)
Theorem disconnect_only_delegates
        (r : Reaction) (c : RemoteDesktopClient) :
  raised (disconnect r c) = raises r /\
  trace (after (disconnect r c))
    = trace c
      ++ ClientDisconnect
         :: map StateNext (reported_states (bound c) (reports r)) /\
  state (after (disconnect r c))
    = latest_or (state c) (reported_states (bound c) (reports r)) /\
  Rx.bs_value (onStateChange (after (disconnect r c)))
    = latest_or (Rx.bs_value (onStateChange c))
                (reported_states (bound c) (reports r)) /\
  onClipboard (after (disconnect r c)) = onClipboard c /\
  published_clipboard (trace (after (disconnect r c)))
    = published_clipboard (trace c) /\
  (trace (after (disconnect quiet c)) = trace c ++ [ClientDisconnect] /\
   state (after (disconnect quiet c)) = state c /\
   onStateChange (after (disconnect quiet c)) = onStateChange c /\
   published_states (trace (after (disconnect quiet c)))
     = published_states (trace c)).
Proof.
  unfold disconnect, engine_call. cbn [raised after].
  destruct (reports_handled (reports r) (emit ClientDisconnect c))
    as (H1 & H2 & H3 & _ & H5 & _).
  change (bound (emit ClientDisconnect c)) with (bound c) in H1, H2, H3.
  change (trace (emit ClientDisconnect c))
    with (trace c ++ [ClientDisconnect]) in H1.
  rewrite <- app_assoc in H1. cbn [app] in H1.
  split; [reflexivity | ]. split; [exact H1 | ].
  split; [exact H2 | ]. split; [exact H3 | ]. split; [exact H5 | ].
  split.
  - rewrite H1, published_clipboard_app. cbn [published_clipboard flat_map].
    cbn [app]. clear. induction (reported_states (bound c) (reports r));
      [now rewrite app_nil_r | exact IHl].
  - cbn [quiet reports fold_left]. unfold emit. cbn [trace state onStateChange].
    rewrite published_states_app. simpl. rewrite app_nil_r. repeat split.
Qed.

(** C7, as first stated, fails twice.  On a new instance the engine's
    disconnect raises, and [disconnect] raises with it.  On a connected
    instance, in state Idle, the engine closes the tunnel before it returns,
    and Disconnected is set and published while [disconnect] runs. *)
Lemma disconnect_raises_and_publishes :
  raised (disconnect (mkReaction [] true)
                     (constructor "ws://host/tunnel" []))
    = true /\
  state (after (connect Http.OmitKey (mkScreen 1024 768) quiet
                        (constructor "ws://host/tunnel" [])))
    = IDLE /\
  state (after (disconnect
                  (mkReaction [ClientReport (JS.Num 4);
                               TunnelReport (JS.Num 2);
                               ClientReport (JS.Num 5)] false)
                  (after (connect Http.OmitKey (mkScreen 1024 768) quiet
                                  (constructor "ws://host/tunnel" [])))))
    = DISCONNECTED /\
  published_states
    (trace (after (disconnect
                     (mkReaction [ClientReport (JS.Num 4);
                                  TunnelReport (JS.Num 2);
                                  ClientReport (JS.Num 5)] false)
                     (after (connect Http.OmitKey (mkScreen 1024 768) quiet
                                     (constructor "ws://host/tunnel" []))))))
    = [DISCONNECTED] /\
  ~ (forall (r : Reaction) (c : RemoteDesktopClient),
        raised (disconnect r c) = false /\
        state (after (disconnect r c)) = state c /\
        published_states (trace (after (disconnect r c)))
          = published_states (trace c)).
Proof.
  repeat split.
  intros H.
  destruct (H (mkReaction [] true) (constructor "ws://host/tunnel" []))
    as [H1 _].
  discriminate H1.
Qed.

(** *** Inbound clipboard *)

Lemma string_app_nil_r (s : string) : (s ++ "")%string = s.
Proof. induction s as [ | a s IH]; simpl; [reflexivity | now rewrite IH]. Qed.

Lemma string_app_assoc (s t u : string) :
  ((s ++ t) ++ u)%string = (s ++ (t ++ u))%string.
Proof. induction s as [ | a s IH]; simpl; [reflexivity | now rewrite IH]. Qed.

Lemma concat_chunks_cons (x : string) (xs : list string) :
  String.concat "" (x :: xs) = (x ++ String.concat "" xs)%string.
Proof.
  destruct xs as [ | y ys]; simpl.
  - now rewrite string_app_nil_r.
  - reflexivity.
Qed.

Lemma reader_data_store (rs : list (stream * string)) (st : stream)
      (d : string) :
  reader_data (reader_store rs st d) st = Some d.
Proof. unfold reader_store. simpl. now rewrite Nat.eqb_refl. Qed.

(** Text chunks only grow the accumulator of their stream. *)
Lemma deliver_chunks (st : stream) (chunks : list string) :
  forall (c : RemoteDesktopClient) (d : string),
    reader_data (readers c) st = Some d ->
    let c' := fold_left (deliver st) (map Text chunks) c in
    reader_data (readers c') st = Some (d ++ String.concat "" chunks)%string /\
    trace c' = trace c /\
    onClipboard c' = onClipboard c /\
    onStateChange c' = onStateChange c /\
    state c' = state c.
Proof.
  induction chunks as [ | x xs IH]; intros c d Hd.
  - simpl. rewrite string_app_nil_r. repeat split. exact Hd.
  - cbv zeta. simpl map. simpl fold_left. unfold ontext. rewrite Hd.
    specialize
      (IH (with_readers (reader_store (readers c) st (d ++ x)%string) c)
          (d ++ x)%string (reader_data_store _ _ _)).
    cbv zeta in IH. destruct IH as (H1 & H2 & H3 & H4 & H5).
    rewrite concat_chunks_cons, <- string_app_assoc.
    repeat split; assumption.
Qed.

(** A stream nobody reads changes nothing. *)
Lemma deliver_unread (st : stream) (es : list StreamEvent) :
  forall c : RemoteDesktopClient,
    reader_data (readers c) st = None ->
    fold_left (deliver st) es c = c.
Proof.
  induction es as [ | e es IH]; intros c Hc.
  - reflexivity.
  - simpl. assert (deliver st c e = c) as ->.
    { destruct e; simpl; unfold ontext, onend; now rewrite Hc. }
    now apply IH.
Qed.

(** A text stream read to its end publishes the concatenation once; read
    without an end it publishes nothing. *)
Lemma receiveStream_text (st : stream) (mimetype : string)
      (chunks : list string) (c : RemoteDesktopClient) :
  is_text mimetype = true ->
  trace (receiveStream st mimetype (map Text chunks ++ [End]) c)
    = trace c ++ [ClipboardNext (JS.Str (String.concat "" chunks))] /\
  onClipboard (receiveStream st mimetype (map Text chunks ++ [End]) c)
    = Rx.rs_next (JS.Str (String.concat "" chunks)) (onClipboard c) /\
  trace (receiveStream st mimetype (map Text chunks) c) = trace c /\
  onClipboard (receiveStream st mimetype (map Text chunks) c) = onClipboard c.
Proof.
  intros Ht. unfold receiveStream, handleClipboard. rewrite Ht.
  set (c0 := with_readers (reader_store (readers c) st "") c).
  destruct (deliver_chunks st chunks c0 "" (reader_data_store _ _ _))
    as (H1 & H2 & H3 & _).
  simpl append in H1.
  rewrite fold_left_app. simpl fold_left at 1 3.
  unfold onend. rewrite H1. unfold onClipboard_next, emit. simpl.
  rewrite H2, H3. repeat split.
Qed.

(** C4.  A stream that has just been announced (nothing reads it yet) and
    whose MIME type begins with [text/]: its chunks followed by the end of
    the stream publish exactly one payload, their concatenation in order,
    on the clipboard channel, and the chunks without the end publish
    nothing.  A stream of any other MIME type publishes nothing, whatever
    arrives on it. *)
Theorem clipboard_assembly
        (st : stream) (mimetype : string) (chunks : list string)
        (es : list StreamEvent) (c : RemoteDesktopClient)
        (Hnew : reader_data (readers c) st = None) :
  if is_text mimetype
  then
    trace (receiveStream st mimetype (map Text chunks ++ [End]) c)
      = trace c ++ [ClipboardNext (JS.Str (String.concat "" chunks))] /\
    published_clipboard
      (trace (receiveStream st mimetype (map Text chunks ++ [End]) c))
      = published_clipboard (trace c) ++ [JS.Str (String.concat "" chunks)] /\
    trace (receiveStream st mimetype (map Text chunks) c) = trace c /\
    onClipboard (receiveStream st mimetype (map Text chunks) c)
      = onClipboard c
  else
    receiveStream st mimetype es c = c.
Proof.
  destruct (is_text mimetype) eqn:Ht.
  - destruct (receiveStream_text st mimetype chunks c Ht)
      as (H1 & H2 & H3 & H4).
    rewrite H1, H3, H4, published_clipboard_app. repeat split.
  - unfold receiveStream, handleClipboard. rewrite Ht.
    now apply deliver_unread.
Qed.

Lemma clipboard_assembly_witness :
  reader_data (readers (constructor "ws://host/tunnel" [])) 0 = None /\
  published_clipboard
    (trace (receiveStream 0 "text/plain" (map Text ["Hel"; "lo"] ++ [End])
                          (constructor "ws://host/tunnel" [])))
  = [JS.Str "Hello"].
Proof.
  split; [reflexivity | ].
  apply (clipboard_assembly 0 "text/plain" ["Hel"; "lo"] []
                            (constructor "ws://host/tunnel" [])).
  reflexivity.
Defined.

Example clipboard_image_dropped :
  receiveStream 0 "image/png" [Text "Hel"; Text "lo"; End]
                (constructor "ws://host/tunnel" [])
  = constructor "ws://host/tunnel" [].
Proof. reflexivity. Qed.

Example clipboard_without_end :
  trace (receiveStream 0 "text/plain" [Text "Hel"; Text "lo"]
                       (constructor "ws://host/tunnel" []))
  = [].
Proof. reflexivity. Qed.

(** *** The configuration builder *)

Lemma get_set (o : JS.object) (k k' : string) (v : JS.value) :
  JS.get (JS.set o k v) k' = if k =? k' then Some v else JS.get o k'.
Proof.
  induction o as [ | [k0 v0] o IH]; simpl.
  - reflexivity.
  - destruct (String.eqb_spec k0 k) as [-> | Hk0]; simpl.
    + destruct (k =? k'); reflexivity.
    + rewrite IH. destruct (String.eqb_spec k0 k') as [-> | Hk0'].
      * destruct (String.eqb_spec k k') as [-> | _];
          [contradiction | reflexivity].
      * reflexivity.
Qed.

Lemma get_None (o : JS.object) (k : string) :
  ~ In k (map fst o) -> JS.get o k = None.
Proof.
  induction o as [ | [k0 v0] o IH]; simpl; intros H.
  - reflexivity.
  - destruct (String.eqb_spec k0 k) as [-> | Hk0].
    + exfalso. apply H. now left.
    + apply IH. intros Hin. apply H. now right.
Qed.

Lemma get_In (o : JS.object) (k : string) (v : JS.value) :
  NoDup (map fst o) -> In (k, v) o -> JS.get o k = Some v.
Proof.
  induction o as [ | [k0 v0] o IH]; simpl; intros Hnd Hin.
  - contradiction.
  - inversion Hnd as [ | ? ? Hnot Hnd']; subst.
    destruct Hin as [Heq | Hin].
    + inversion Heq; subst. now rewrite String.eqb_refl.
    + destruct (String.eqb_spec k0 k) as [-> | Hk0].
      * exfalso. apply Hnot. apply (in_map fst) in Hin. exact Hin.
      * now apply IH.
Qed.

(** Assigning a well-formed list of properties over an object. *)
Lemma get_assign (l : JS.object) :
  forall (base : JS.object) (k : string),
    NoDup (map fst l) ->
    JS.get (fold_left (fun acc kv => JS.set acc (fst kv) (snd kv)) l base) k =
    match JS.get l k with
    | Some v => Some v
    | None => JS.get base k
    end.
Proof.
  induction l as [ | [k0 v0] l IH]; intros base k Hnd.
  - reflexivity.
  - inversion Hnd as [ | ? ? Hnot Hnd']; subst.
    simpl fold_left. rewrite (IH _ _ Hnd'). simpl JS.get. rewrite get_set.
    destruct (String.eqb_spec k0 k) as [-> | Hk0].
    + now rewrite (get_None l k Hnot).
    + reflexivity.
Qed.

Lemma insert_index_perm (e : N * (string * JS.value))
      (l : list (N * (string * JS.value))) :
  Permutation (JS.insert_index e l) (e :: l).
Proof.
  induction l as [ | e' l IH]; simpl.
  - apply Permutation_refl.
  - destruct (fst e <? fst e')%N.
    + apply Permutation_refl.
    + eapply Permutation_trans; [apply perm_skip, IH | apply perm_swap].
Qed.

(** Enumeration reorders the properties and loses none. *)
Lemma entries_perm (o : JS.object) : Permutation (JS.entries o) o.
Proof.
  unfold JS.entries. induction o as [ | [k v] o IH]; simpl.
  - apply Permutation_refl.
  - destruct (JS.array_index k) as [n | ].
    + eapply Permutation_trans.
      * apply Permutation_app_tail, Permutation_map, insert_index_perm.
      * simpl. now apply perm_skip.
    + eapply Permutation_trans.
      * apply Permutation_sym, Permutation_middle.
      * now apply perm_skip.
Qed.

Lemma get_entries (o : JS.object) (k : string) :
  NoDup (map fst o) -> JS.get (JS.entries o) k = JS.get o k.
Proof.
  intros Hnd.
  assert (NoDup (map fst (JS.entries o))) as Hnd'.
  { eapply Permutation_NoDup; [ | exact Hnd].
    apply Permutation_map, Permutation_sym, entries_perm. }
  destruct (JS.get o k) as [v | ] eqn:Hget.
  - apply get_In; [exact Hnd' | ].
    eapply Permutation_in; [apply Permutation_sym, entries_perm | ].
    clear Hnd Hnd'. induction o as [ | [k0 v0] o IH]; simpl in *.
    + discriminate.
    + destruct (String.eqb_spec k0 k) as [-> | Hk0].
      * inversion Hget; subst. now left.
      * right. now apply IH.
  - apply get_None. intros Hin.
    assert (In k (map fst o)) as Hin'.
    { eapply Permutation_in; [ | exact Hin].
      apply Permutation_map, entries_perm. }
    clear Hnd Hnd' Hin. induction o as [ | [k0 v0] o IH]; simpl in *.
    + contradiction.
    + destruct (String.eqb_spec k0 k) as [-> | Hk0].
      * discriminate.
      * destruct Hin' as [Heq | Hin']; [contradiction | now apply IH].
Qed.

(** C5.  The configuration builder lays the caller's options over the
    computed defaults ID, WIDTH, HEIGHT, AUDIO and IMAGE, the caller's value
    winning where both name a key.  With no caller options on a 1024 by 768
    screen the configuration is
    [WIDTH=1024&HEIGHT=768&AUDIO=audio%2FL16&IMAGE=image%2Fpng], with ID left
    out or written with an empty value in front; with the caller option
    WIDTH = 800 the WIDTH of the configuration is 800. *)
Theorem buildConfiguration_merges
        (screen : Screen) (c : RemoteDesktopClient) (k url : string)
        (Hwf : NoDup (map fst (options c))) :
  JS.get (mergedOptions screen c) k =
    match JS.get (options c) k with
    | Some v => Some v
    | None => JS.get (defaults screen) k
    end /\
  defaults screen =
    [ ("ID", JS.Null); ("WIDTH", JS.Num (width screen));
      ("HEIGHT", JS.Num (height screen)); ("AUDIO", JS.Str "audio/L16");
      ("IMAGE", JS.Str "image/png") ] /\
  buildConfiguration Http.OmitKey (mkScreen 1024 768) (constructor url [])
    = JS.Returns
        "WIDTH=1024&HEIGHT=768&AUDIO=audio%2FL16&IMAGE=image%2Fpng" /\
  buildConfiguration Http.EmptyValue (mkScreen 1024 768) (constructor url [])
    = JS.Returns
        "ID=&WIDTH=1024&HEIGHT=768&AUDIO=audio%2FL16&IMAGE=image%2Fpng" /\
  buildConfiguration Http.OmitKey (mkScreen 1024 768)
                     (constructor url [("WIDTH", JS.Num 800)])
    = JS.Returns
        "WIDTH=800&HEIGHT=768&AUDIO=audio%2FL16&IMAGE=image%2Fpng" /\
  buildConfiguration Http.EmptyValue (mkScreen 1024 768)
                     (constructor url [("WIDTH", JS.Num 800)])
    = JS.Returns
        "ID=&WIDTH=800&HEIGHT=768&AUDIO=audio%2FL16&IMAGE=image%2Fpng".
Proof.
  split; [ | repeat split].
  unfold mergedOptions, JS.spread, calculateDimensions.
  rewrite get_assign.
  - rewrite (get_entries _ _ Hwf). destruct screen; reflexivity.
  - eapply Permutation_NoDup; [ | exact Hwf].
    apply Permutation_map, Permutation_sym, entries_perm.
Qed.

Lemma buildConfiguration_merges_witness :
  NoDup (map fst (options (constructor "ws://host/tunnel"
                                       [("WIDTH", JS.Num 800)]))) /\
  JS.get (mergedOptions (mkScreen 1024 768)
                        (constructor "ws://host/tunnel"
                                     [("WIDTH", JS.Num 800)])) "WIDTH"
  = Some (JS.Num 800).
Proof.
  split.
  - repeat constructor. simpl. tauto.
  - apply (buildConfiguration_merges
             (mkScreen 1024 768)
             (constructor "ws://host/tunnel" [("WIDTH", JS.Num 800)])
             "WIDTH" "ws://host/tunnel").
    repeat constructor. simpl. tauto.
Defined.

Example buildConfiguration_caller_keys :
  buildConfiguration Http.OmitKey (mkScreen 1024 768)
    (constructor "ws://host/tunnel"
       [("IMAGE", JS.Undefined); ("host", JS.Str "a b");
        ("ID", JS.Str "c/1"); ("7", JS.Bool true)])
  = JS.Returns
      "7=true&ID=c%2F1&WIDTH=1024&HEIGHT=768&AUDIO=audio%2FL16&host=a%20b".
Proof. reflexivity. Qed.

(** *** Channels and reachable instances *)

Lemma latest_snoc {A : Type} (x : A) (l : list A) :
  latest (l ++ [x]) = [x].
Proof. unfold latest. now rewrite rev_unit. Qed.

Lemma take_last_snoc {A : Type} (x : A) (l : list A) :
  Rx.take_last 1 (l ++ [x]) = [x].
Proof.
  unfold Rx.take_last. rewrite length_app. simpl.
  replace (List.length l + 1 - 1) with (List.length l) by lia.
  rewrite skipn_app, skipn_all, Nat.sub_diag. reflexivity.
Qed.

Lemma take_last_latest {A : Type} (x : A) (l : list A) :
  Rx.take_last 1 (latest l ++ [x]) = [x].
Proof. apply take_last_snoc. Qed.

Lemma received_by_app {A : Type} (o : Rx.observer)
      (l m : list (Rx.observer * A)) :
  Rx.received_by o (l ++ m) = Rx.received_by o l ++ Rx.received_by o m.
Proof. unfold Rx.received_by. now rewrite filter_app, map_app. Qed.

Lemma received_by_own {A : Type} (o : Rx.observer) (vs : list A) :
  Rx.received_by o (map (fun v => (o, v)) vs) = vs.
Proof.
  unfold Rx.received_by. induction vs as [ | v vs IH]; simpl.
  - reflexivity.
  - rewrite Nat.eqb_refl. simpl. now rewrite IH.
Qed.

Lemma bs_subscribe_received {A : Type} (o : Rx.observer)
      (s : Rx.BehaviorSubject A) :
  Rx.received_by o (Rx.bs_log (Rx.bs_subscribe o s))
  = Rx.received_by o (Rx.bs_log s) ++ Rx.bs_replay s.
Proof.
  unfold Rx.bs_subscribe. cbn [Rx.bs_log].
  now rewrite received_by_app, received_by_own.
Qed.

Lemma rs_subscribe_received {A : Type} (o : Rx.observer)
      (s : Rx.ReplaySubject A) :
  Rx.received_by o (Rx.rs_log (Rx.rs_subscribe o s))
  = Rx.received_by o (Rx.rs_log s) ++ Rx.rs_replay s.
Proof.
  unfold Rx.rs_subscribe. cbn [Rx.rs_log].
  now rewrite received_by_app, received_by_own.
Qed.

Lemma consistent_constructor (url : string) (opts : JS.object) :
  consistent (constructor url opts).
Proof. repeat split. Qed.

Lemma consistent_setState (s : STATE) (c : RemoteDesktopClient) :
  consistent c -> consistent (setState s c).
Proof.
  intros (_ & _ & H3 & H4). unfold consistent.
  rewrite trace_setState, published_states_app, published_clipboard_app.
  simpl published_states at 2 4. simpl published_clipboard at 2.
  rewrite app_nil_r, !latest_or_snoc. repeat split; assumption.
Qed.

Lemma consistent_onClipboard_next (v : JS.value) (c : RemoteDesktopClient) :
  consistent c -> consistent (onClipboard_next v c).
Proof.
  intros (H1 & H2 & H3 & H4). unfold consistent, onClipboard_next, emit.
  simpl. rewrite published_states_app, published_clipboard_app. simpl.
  rewrite app_nil_r, latest_snoc, H3, H4, take_last_latest.
  repeat split; assumption.
Qed.

(** An effect that is no publication leaves the agreement alone. *)
Lemma consistent_emit (e : Effect) (c : RemoteDesktopClient) :
  published_states [e] = [] -> published_clipboard [e] = [] ->
  consistent c -> consistent (emit e c).
Proof.
  intros He1 He2 (H1 & H2 & H3 & H4). unfold consistent, emit. simpl.
  rewrite published_states_app, published_clipboard_app, He1, He2, !app_nil_r.
  repeat split; assumption.
Qed.

Lemma consistent_slot (h : RemoteDesktopClient -> RemoteDesktopClient)
      (c : RemoteDesktopClient) :
  (consistent c -> consistent (h c)) -> consistent c -> consistent (slot h c).
Proof. unfold slot. destruct (bound c); auto. Qed.

Lemma consistent_reports (rs : list Report) :
  forall c : RemoteDesktopClient,
    consistent c -> consistent (fold_left report rs c).
Proof.
  induction rs as [ | r rs IH]; intros c H.
  - exact H.
  - cbn [fold_left]. apply IH. rewrite report_table.
    destruct (bound c); [ | exact H].
    destruct (report_state r); [now apply consistent_setState | exact H].
Qed.

Lemma consistent_engine_call (e : Effect) (r : Reaction)
      (c : RemoteDesktopClient) :
  published_states [e] = [] -> published_clipboard [e] = [] ->
  consistent c -> consistent (after (engine_call e r c)).
Proof.
  intros H1 H2 H. unfold engine_call. cbn [after].
  apply consistent_reports. now apply consistent_emit.
Qed.

Lemma consistent_connect (nv : Http.NoValue) (screen : Screen)
      (r : Reaction) (c : RemoteDesktopClient) :
  consistent c -> consistent (after (connect nv screen r c)).
Proof.
  intros H. unfold connect.
  destruct (buildConfiguration nv screen c) as [configuration | ];
    [ | exact H].
  cbv zeta.
  pose proof (consistent_engine_call (ClientConnect configuration) r c
                                     eq_refl eq_refl H) as H'.
  destruct (raised (engine_call (ClientConnect configuration) r c));
    exact H'.
Qed.

Lemma consistent_disconnect (r : Reaction) (c : RemoteDesktopClient) :
  consistent c -> consistent (after (disconnect r c)).
Proof. now apply consistent_engine_call. Qed.

Lemma consistent_handleClientError (status : JS.value) (r : Reaction)
      (c : RemoteDesktopClient) :
  consistent c -> consistent (after (handleClientError status r c)).
Proof.
  intros H. unfold handleClientError. cbv zeta.
  pose proof (consistent_disconnect r c H) as H'.
  destruct (raised (disconnect r c)); [exact H' | ].
  now apply consistent_setState.
Qed.

Lemma consistent_handleTunnelError (status : JS.value) (r : Reaction)
      (c : RemoteDesktopClient) :
  consistent c -> consistent (after (handleTunnelError status r c)).
Proof.
  intros H. unfold handleTunnelError. cbv zeta.
  pose proof (consistent_disconnect r c H) as H'.
  destruct (raised (disconnect r c)); [exact H' | ].
  now apply consistent_setState.
Qed.

Lemma consistent_step (nv : Http.NoValue) (c : RemoteDesktopClient)
      (e : Event) :
  consistent c -> consistent (step nv c e).
Proof.
  intros H. destruct e; cbn [step].
  - now apply consistent_connect.
  - now apply consistent_disconnect.
  - unfold sendClipboard. destruct (JS.truthy text); [ | exact H].
    apply consistent_emit; try reflexivity.
    now apply consistent_onClipboard_next.
  - apply consistent_slot; [ | exact H].
    apply consistent_handleClientError.
  - apply consistent_slot; [ | exact H]. intros H'.
    rewrite handleClientStateChange_table.
    destruct (client_table code); [now apply consistent_setState | exact H'].
  - apply consistent_slot; [ | exact H]. intros H'.
    unfold handleClipboard. destruct (is_text mimetype); exact H'.
  - apply consistent_slot; [ | exact H].
    apply consistent_handleTunnelError.
  - apply consistent_slot; [ | exact H]. intros H'.
    rewrite handleTunnelStateChange_table.
    destruct (tunnel_table code); [now apply consistent_setState | exact H'].
  - unfold ontext. destruct (reader_data (readers c) st); exact H.
  - unfold onend. destruct (reader_data (readers c) st); [ | exact H].
    now apply consistent_onClipboard_next.
  - exact H.
  - exact H.
Qed.

(** Every instance reached from a new one is consistent. *)
Lemma consistent_run (nv : Http.NoValue) (es : list Event) :
  forall c : RemoteDesktopClient, consistent c -> consistent (run nv es c).
Proof.
  unfold run. induction es as [ | e es IH]; intros c H.
  - exact H.
  - simpl. apply IH. now apply consistent_step.
Qed.

(** C8.  The state channel starts out holding Connecting: whoever
    subscribes to a new instance is handed Connecting at once.  On every
    instance reached from a new one, a subscriber is handed at once exactly
    one value, the most recently published state (Connecting while none has
    been published). *)
Theorem state_channel_replays_current
        (nv : Http.NoValue) (url : string) (opts : JS.object)
        (es : list Event) (o : Rx.observer) :
  Rx.bs_replay (onStateChange (constructor url opts)) = [CONNECTING] /\
  Rx.received_by o
    (Rx.bs_log (onStateChange (step nv (constructor url opts)
                                    (SubscribeState o))))
    = [CONNECTING] /\
  Rx.bs_replay (onStateChange (run nv es (constructor url opts)))
    = [latest_or CONNECTING
         (published_states (trace (run nv es (constructor url opts))))] /\
  Rx.received_by o
    (Rx.bs_log (onStateChange (step nv (run nv es (constructor url opts))
                                    (SubscribeState o))))
    = Rx.received_by o
        (Rx.bs_log (onStateChange (run nv es (constructor url opts))))
      ++ [latest_or CONNECTING
            (published_states (trace (run nv es (constructor url opts))))].
Proof.
  destruct (consistent_run nv es _ (consistent_constructor url opts))
    as (_ & H2 & _ & _).
  split; [reflexivity | ].
  split; [simpl; apply (received_by_own o [CONNECTING]) | ].
  split.
  - unfold Rx.bs_replay. now rewrite H2.
  - cbn [step onStateChange with_onStateChange].
    rewrite bs_subscribe_received. unfold Rx.bs_replay. now rewrite H2.
Qed.

(** C9.  The clipboard channel starts out empty: whoever subscribes to a new
    instance is handed nothing.  On every instance reached from a new one, a
    subscriber is handed at once the most recently published payload alone,
    and nothing while no payload has been published. *)
Theorem clipboard_channel_replays_latest
        (nv : Http.NoValue) (url : string) (opts : JS.object)
        (es : list Event) (o : Rx.observer) :
  Rx.rs_replay (onClipboard (constructor url opts)) = [] /\
  Rx.received_by o
    (Rx.rs_log (onClipboard (step nv (constructor url opts)
                                  (SubscribeClipboard o))))
    = [] /\
  Rx.rs_bufferSize (onClipboard (run nv es (constructor url opts))) = 1 /\
  Rx.rs_replay (onClipboard (run nv es (constructor url opts)))
    = latest (published_clipboard (trace (run nv es (constructor url opts)))) /\
  Rx.received_by o
    (Rx.rs_log (onClipboard (step nv (run nv es (constructor url opts))
                                  (SubscribeClipboard o))))
    = Rx.received_by o
        (Rx.rs_log (onClipboard (run nv es (constructor url opts))))
      ++ latest (published_clipboard
                   (trace (run nv es (constructor url opts)))).
Proof.
  destruct (consistent_run nv es _ (consistent_constructor url opts))
    as (_ & _ & H3 & H4).
  repeat split.
  - exact H3.
  - exact H4.
  - cbn [step onClipboard with_onClipboard].
    rewrite rs_subscribe_received. unfold Rx.rs_replay. now rewrite H4.
Qed.

Example clipboard_channel_run :
  Rx.received_by 7
    (Rx.rs_log (onClipboard
       (run Http.OmitKey
            [SendClipboard (JS.Str "one"); SendClipboard (JS.Str "");
             SendClipboard (JS.Str "two"); SubscribeClipboard 7]
            (constructor "ws://host/tunnel" []))))
  = [JS.Str "two"].
Proof. reflexivity. Qed.

(** C10.  On a new instance the queried state is Idle while the state
    channel replays Connecting.  [setState] brings the two together: after
    it the queried state, the value held by the state channel and the last
    published state are the same.  On every instance reached from a new one
    the queried state is the last published state, Idle while none has been
    published, and the channel replays the last published state, Connecting
    while none has been published. *)
Theorem queried_state_and_state_channel
        (nv : Http.NoValue) (url : string) (opts : JS.object)
        (es : list Event) (s : STATE) (c : RemoteDesktopClient) :
  (getState (constructor url opts) = IDLE /\
   isState IDLE (constructor url opts) = true /\
   Rx.bs_replay (onStateChange (constructor url opts)) = [CONNECTING]) /\
  (getState (setState s c) = s /\
   Rx.bs_replay (onStateChange (setState s c)) = [s] /\
   latest_or CONNECTING (published_states (trace (setState s c))) = s) /\
  getState (run nv es (constructor url opts))
    = latest_or IDLE
        (published_states (trace (run nv es (constructor url opts)))) /\
  Rx.bs_replay (onStateChange (run nv es (constructor url opts)))
    = [latest_or CONNECTING
         (published_states (trace (run nv es (constructor url opts))))].
Proof.
  destruct (consistent_run nv es _ (consistent_constructor url opts))
    as (H1 & H2 & _ & _).
  repeat split.
  - rewrite trace_setState, published_states_app. apply latest_or_snoc.
  - exact H1.
  - unfold Rx.bs_replay. now rewrite H2.
Qed.

Example state_channel_run :
  let c := run Http.OmitKey
               [ClientOnStateChange (JS.Num 3);
                Connect (mkScreen 1024 768) quiet;
                TunnelOnStateChange (JS.Num 1);
                ClientOnStateChange (JS.Num 1);
                ClientOnStateChange (JS.Num 2);
                SubscribeState 4;
                ClientOnStateChange (JS.Num 3);
                TunnelOnError (JS.Num 519) quiet]
               (constructor "ws://host/tunnel" []) in
  published_states (trace c)
    = [CONNECTING; WAITING; CONNECTED; TUNNEL_ERROR] /\
  Rx.received_by 4 (Rx.bs_log (onStateChange c))
    = [WAITING; CONNECTED; TUNNEL_ERROR] /\
  getState c = TUNNEL_ERROR.
Proof. repeat split. Qed.

(* ================================================================== *)
(** ** Further properties of the service *)
(* ================================================================== *)

(** *** Binding of the callback slots *)

Lemma slot_unbound (h : RemoteDesktopClient -> RemoteDesktopClient)
      (c : RemoteDesktopClient) :
  bound c = false -> slot h c = c.
Proof. intros H. unfold slot. now rewrite H. Qed.

(** X1.  Until [connect] has bound the handlers, whatever the engine and
    the tunnel fire (errors, state changes, clipboard streams) is lost: the
    instance stays exactly as it is. *)
Theorem events_before_connect_are_missed
        (nv : Http.NoValue) (es : list Event) (c : RemoteDesktopClient)
        (Hunbound : bound c = false)
        (Hslots : forallb through_slot es = true) :
  run nv es c = c.
Proof.
  unfold run. induction es as [ | e es IH]; simpl.
  - reflexivity.
  - simpl in Hslots. apply andb_prop in Hslots. destruct Hslots as [He Hes].
    assert (step nv c e = c) as ->.
    { destruct e; try discriminate He; simpl; now apply slot_unbound. }
    now apply IH.
Qed.

Lemma events_before_connect_are_missed_witness :
  bound (constructor "ws://host/tunnel" []) = false /\
  forallb through_slot
          [TunnelOnStateChange (JS.Num 1); ClientOnStateChange (JS.Num 3);
           ClientOnClipboard 0 "text/plain"; ClientOnError (JS.Num 512) quiet]
    = true /\
  run Http.OmitKey
      [TunnelOnStateChange (JS.Num 1); ClientOnStateChange (JS.Num 3);
       ClientOnClipboard 0 "text/plain"; ClientOnError (JS.Num 512) quiet]
      (constructor "ws://host/tunnel" [])
    = constructor "ws://host/tunnel" [].
Proof.
  split; [reflexivity | ]. split; [reflexivity | ].
  apply (events_before_connect_are_missed
           Http.OmitKey
           [TunnelOnStateChange (JS.Num 1); ClientOnStateChange (JS.Num 3);
            ClientOnClipboard 0 "text/plain"; ClientOnError (JS.Num 512) quiet]
           (constructor "ws://host/tunnel" [])); reflexivity.
Defined.

(** *** The options and the configuration *)

Lemma options_step (nv : Http.NoValue) (c : RemoteDesktopClient)
      (e : Event) :
  options (step nv c e) = options c.
Proof.
  assert (forall e' r', options (after (engine_call e' r' c)) = options c)
    as Hcall.
  { intros e' r'. unfold engine_call. cbn [after].
    destruct (reports_handled (reports r') (emit e' c))
      as (_ & _ & _ & _ & _ & _ & H).
    exact H. }
  assert (forall r', options (after (disconnect r' c)) = options c) as Hdis
      by (intros r'; apply Hcall).
  destruct e; cbn [step].
  - unfold connect. destruct (buildConfiguration nv screen c); [ | reflexivity].
    cbv zeta. destruct (raised _); cbn [after options with_bound];
      apply Hcall.
  - apply Hdis.
  - unfold sendClipboard. now destruct (JS.truthy text).
  - unfold slot, handleClientError. destruct (bound c); [ | reflexivity].
    cbv zeta. destruct (raised _); cbn [after]; apply Hdis.
  - unfold slot. destruct (bound c); [ | reflexivity].
    rewrite handleClientStateChange_table.
    now destruct (client_table code).
  - unfold slot, handleClipboard. destruct (bound c); [ | reflexivity].
    now destruct (is_text mimetype).
  - unfold slot, handleTunnelError. destruct (bound c); [ | reflexivity].
    cbv zeta. destruct (raised _); cbn [after]; apply Hdis.
  - unfold slot. destruct (bound c); [ | reflexivity].
    rewrite handleTunnelStateChange_table.
    now destruct (tunnel_table code).
  - unfold ontext. now destruct (reader_data (readers c) st).
  - unfold onend. now destruct (reader_data (readers c) st).
  - reflexivity.
  - reflexivity.
Qed.


Lemma owns_set (o : JS.object) (k k' : string) (v : JS.value) :
  JS.owns (JS.set o k v) k' = (k =? k') || JS.owns o k'.
Proof.
  unfold JS.owns. rewrite get_set. now destruct (k =? k').
Qed.

Lemma owns_assign (l : JS.object) (k : string) :
  forall base : JS.object,
    JS.owns (fold_left (fun acc kv => JS.set acc (fst kv) (snd kv)) l base) k
    = JS.owns base k || existsb (fun kv => fst kv =? k) l.
Proof.
  induction l as [ | [k0 v0] l IH]; intros base.
  - simpl. now rewrite orb_false_r.
  - cbn [fold_left existsb fst snd]. rewrite IH, owns_set.
    destruct (k0 =? k), (JS.owns base k); reflexivity.
Qed.

Lemma owns_existsb (o : JS.object) (k : string) :
  JS.owns o k = existsb (fun kv => fst kv =? k) o.
Proof.
  unfold JS.owns. induction o as [ | [k0 v0] o IH]; simpl.
  - reflexivity.
  - destruct (k0 =? k); [reflexivity | exact IH].
Qed.

Lemma existsb_perm {A : Type} (f : A -> bool) (l m : list A) :
  Permutation l m -> existsb f l = existsb f m.
Proof.
  intros P. induction P; simpl.
  - reflexivity.
  - now rewrite IHP.
  - destruct (f x), (f y); reflexivity.
  - now rewrite IHP1.
Qed.

(** The merged options own a key that is no default exactly when the
    caller's options own it. *)
Lemma owns_mergedOptions (screen : Screen) (c : RemoteDesktopClient) :
  JS.owns (mergedOptions screen c) "hasOwnProperty"
  = JS.owns (options c) "hasOwnProperty".
Proof.
  unfold mergedOptions, JS.spread. rewrite owns_assign.
  rewrite (existsb_perm _ _ _ (entries_perm (options c))).
  now rewrite <- owns_existsb.
Qed.

(** Building the configuration throws exactly for options that own a
    property named [hasOwnProperty]. *)
Lemma buildConfiguration_throws (nv : Http.NoValue) (screen : Screen)
      (c : RemoteDesktopClient) :
  (JS.owns (options c) "hasOwnProperty" = true /\
   buildConfiguration nv screen c = JS.Throws) \/
  (JS.owns (options c) "hasOwnProperty" = false /\
   exists configuration : string,
     buildConfiguration nv screen c = JS.Returns configuration).
Proof.
  unfold buildConfiguration, buildQueryString.
  rewrite owns_mergedOptions.
  destruct (JS.owns (options c) "hasOwnProperty").
  - left. now split.
  - right. split; [reflexivity | ]. eexists. reflexivity.
Qed.

(** What [connect] leaves behind, case by case. *)
Lemma connect_cases (nv : Http.NoValue) (screen : Screen) (r : Reaction)
      (c : RemoteDesktopClient) :
  (JS.owns (options c) "hasOwnProperty" = true /\
   connect nv screen r c = mkOutcome true c) \/
  (JS.owns (options c) "hasOwnProperty" = false /\
   exists configuration : string,
     buildConfiguration nv screen c = JS.Returns configuration /\
     connect nv screen r c
     = mkOutcome
         (raises r)
         (with_bound (bound c || negb (raises r))
            (fold_left report (reports r)
                       (emit (ClientConnect configuration) c)))).
Proof.
  destruct (buildConfiguration_throws nv screen c)
    as [[Ho Hb] | [Ho [configuration Hb]]].
  - left. split; [exact Ho | ]. unfold connect. now rewrite Hb.
  - right. split; [exact Ho | ]. exists configuration.
    split; [exact Hb | ]. unfold connect. rewrite Hb. cbv zeta.
    unfold engine_call. cbn [raised after].
    destruct (reports_handled (reports r)
                              (emit (ClientConnect configuration) c))
      as (_ & _ & _ & H4 & _).
    change (bound (emit (ClientConnect configuration) c)) with (bound c)
      in H4.
    destruct (raises r).
    + rewrite orb_false_r. f_equal. rewrite <- H4.
      now destruct (fold_left report _ _).
    + rewrite orb_true_r. reflexivity.
Qed.

(** *** Binding of the callback slots, continued *)

Lemma bound_setState (s : STATE) (c : RemoteDesktopClient) :
  bound (setState s c) = bound c.
Proof. reflexivity. Qed.

Lemma bound_step (nv : Http.NoValue) (c : RemoteDesktopClient) (e : Event) :
  bound (step nv c e)
  = bound c
    || negb (JS.owns (options c) "hasOwnProperty") && returning_connect e.
Proof.
  assert (forall e' r', bound (after (engine_call e' r' c)) = bound c)
    as Hcall.
  { intros e' r'. unfold engine_call. cbn [after].
    destruct (reports_handled (reports r') (emit e' c))
      as (_ & _ & _ & H & _).
    exact H. }
  assert (forall r', bound (after (disconnect r' c)) = bound c) as Hdis
      by (intros r'; apply Hcall).
  destruct e; cbn [step returning_connect];
    rewrite ?andb_false_r, ?orb_false_r.
  - destruct (connect_cases nv screen r c)
      as [[Ho ->] | [Ho (configuration & _ & ->)]]; rewrite Ho.
    + cbn [after negb andb]. now rewrite orb_false_r.
    + reflexivity.
  - apply Hdis.
  - unfold sendClipboard. now destruct (JS.truthy text).
  - unfold slot, handleClientError. destruct (bound c) eqn:Hb; [ | exact Hb].
    cbv zeta. destruct (raised _); cbn [after];
      rewrite ?bound_setState; apply Hdis.
  - unfold slot. destruct (bound c) eqn:Hb; [ | exact Hb].
    rewrite handleClientStateChange_table.
    destruct (client_table code); [rewrite bound_setState | ]; exact Hb.
  - unfold slot. destruct (bound c) eqn:Hb; [ | exact Hb].
    unfold handleClipboard. destruct (is_text mimetype); exact Hb.
  - unfold slot, handleTunnelError. destruct (bound c) eqn:Hb; [ | exact Hb].
    cbv zeta. destruct (raised _); cbn [after];
      rewrite ?bound_setState; apply Hdis.
  - unfold slot. destruct (bound c) eqn:Hb; [ | exact Hb].
    rewrite handleTunnelStateChange_table.
    destruct (tunnel_table code); [rewrite bound_setState | ]; exact Hb.
  - unfold ontext. now destruct (reader_data (readers c) st).
  - unfold onend. now destruct (reader_data (readers c) st).
  - reflexivity.
  - reflexivity.
Qed.

(** X2.  The handlers are bound exactly from the first [connect] that goes
    through: after any run of calls and events they are bound if they were
    before, or if the options own no property named [hasOwnProperty] (with
    one, [connect] throws before it calls the engine) and the run contains
    a [connect] inside which the engine's call returns.  Nothing, not
    [disconnect] and not an error, unbinds them. *)
Theorem handlers_bound_from_first_connect
        (nv : Http.NoValue) (es : list Event) (c : RemoteDesktopClient) :
  bound (run nv es c)
  = bound c
    || negb (JS.owns (options c) "hasOwnProperty")
       && existsb returning_connect es.
Proof.
  unfold run. revert c. induction es as [ | e es IH]; intros c.
  - simpl. now rewrite andb_false_r, orb_false_r.
  - cbn [fold_left existsb]. rewrite IH, options_step, bound_step.
    destruct (bound c), (JS.owns (options c) "hasOwnProperty"),
      (returning_connect e); reflexivity.
Qed.

Example connect_throws_and_binds_nothing :
  connect Http.OmitKey (mkScreen 1024 768) quiet
          (constructor "ws://host/tunnel" [("hasOwnProperty", JS.Str "x")])
  = mkOutcome true
      (constructor "ws://host/tunnel" [("hasOwnProperty", JS.Str "x")]).
Proof. reflexivity. Qed.

(** *** The state machine over whole runs *)

(** What [setState] does to the three views of the state. *)
Lemma setState_views (s : STATE) (c : RemoteDesktopClient) :
  published_states (trace (setState s c)) = published_states (trace c) ++ [s]
  /\ state (setState s c) = s
  /\ Rx.bs_value (onStateChange (setState s c)) = s.
Proof.
  rewrite trace_setState, published_states_app. repeat split.
Qed.

Lemma moved_by_nothing (c c' : RemoteDesktopClient) :
  published_states (trace c') = published_states (trace c) ->
  state c' = state c ->
  Rx.bs_value (onStateChange c') = Rx.bs_value (onStateChange c) ->
  moved_by [] c c'.
Proof.
  intros H1 H2 H3. unfold moved_by.
  rewrite H1, H2, H3, app_nil_r. repeat split.
Qed.

Lemma moved_by_setState (s : STATE) (c : RemoteDesktopClient) :
  moved_by [s] c (setState s c).
Proof. unfold moved_by. apply setState_views. Qed.

Lemma moved_by_trans (l m : list STATE) (a b c : RemoteDesktopClient) :
  moved_by l a b -> moved_by m b c -> moved_by (l ++ m) a c.
Proof.
  intros (H1 & H2 & H3) (K1 & K2 & K3). unfold moved_by.
  rewrite K1, K2, K3, H1, H2, H3, !latest_or_app, app_assoc.
  repeat split.
Qed.

Lemma moved_by_onClipboard_next (v : JS.value) (c : RemoteDesktopClient) :
  moved_by [] c (onClipboard_next v c).
Proof.
  apply moved_by_nothing; try reflexivity.
  unfold onClipboard_next, emit. simpl trace.
  now rewrite published_states_app, app_nil_r.
Qed.

(** A call into the engine moves the state by what the engine reports. *)
Lemma moved_by_engine_call (e : Effect) (r : Reaction)
      (c : RemoteDesktopClient) :
  published_states [e] = [] ->
  moved_by (reported_states (bound c) (reports r)) c
           (after (engine_call e r c)).
Proof.
  intros He. unfold moved_by, engine_call. cbn [after].
  destruct (reports_handled (reports r) (emit e c)) as (H1 & H2 & H3 & _).
  rewrite H1, H2, H3. unfold emit. cbn [trace state onStateChange bound].
  rewrite !published_states_app, published_states_StateNext, He, app_nil_r.
  repeat split.
Qed.

Lemma moved_by_error (s : STATE) (r : Reaction) (c : RemoteDesktopClient) :
  moved_by (reported_states (bound c) (reports r)
            ++ (if raises r then [] else [s]))
           c
           (after (let o := disconnect r c in
                   if raised o then o
                   else mkOutcome false (setState s (after o)))).
Proof.
  cbv zeta.
  pose proof (moved_by_engine_call ClientDisconnect r c eq_refl) as H.
  change (raised (disconnect r c)) with (raises r).
  destruct (raises r).
  - rewrite app_nil_r. exact H.
  - cbn [after]. eapply moved_by_trans; [exact H | apply moved_by_setState].
Qed.

(** One call or event moves the state as the event alone says. *)
Lemma moved_by_step (nv : Http.NoValue) (c : RemoteDesktopClient)
      (e : Event) :
  moved_by (event_states (bound c) (JS.owns (options c) "hasOwnProperty") e)
           c (step nv c e).
Proof.
  assert (moved_by [] c c) as Hrefl by (now apply moved_by_nothing).
  destruct e; cbn [step event_states].
  - destruct (connect_cases nv screen r c)
      as [[Ho ->] | [Ho (configuration & _ & ->)]]; rewrite Ho;
      cbn [after].
    + exact Hrefl.
    + pose proof (moved_by_engine_call (ClientConnect configuration) r c
                                       eq_refl) as H.
      unfold engine_call in H. cbn [after] in H. exact H.
  - now apply moved_by_engine_call.
  - unfold sendClipboard. destruct (JS.truthy text); [ | exact Hrefl].
    apply (moved_by_trans [] [] c (onClipboard_next text c)).
    + apply moved_by_onClipboard_next.
    + apply moved_by_nothing; try reflexivity.
      unfold emit. cbn [trace].
      now rewrite published_states_app, app_nil_r.
  - unfold slot. destruct (bound c) eqn:Hb; [ | exact Hrefl].
    rewrite <- Hb. apply (moved_by_error CLIENT_ERROR).
  - unfold slot. destruct (bound c); [ | exact Hrefl].
    rewrite handleClientStateChange_table.
    destruct (client_table code); [apply moved_by_setState | exact Hrefl].
  - unfold slot, handleClipboard.
    destruct (bound c); [ | exact Hrefl].
    destruct (is_text mimetype); [ | exact Hrefl].
    now apply moved_by_nothing.
  - unfold slot. destruct (bound c) eqn:Hb; [ | exact Hrefl].
    rewrite <- Hb. apply (moved_by_error TUNNEL_ERROR).
  - unfold slot. destruct (bound c); [ | exact Hrefl].
    rewrite handleTunnelStateChange_table.
    destruct (tunnel_table code); [apply moved_by_setState | exact Hrefl].
  - unfold ontext. destruct (reader_data (readers c) st); [ | exact Hrefl].
    now apply moved_by_nothing.
  - unfold onend. destruct (reader_data (readers c) st); [ | exact Hrefl].
    apply moved_by_onClipboard_next.
  - now apply moved_by_nothing.
  - now apply moved_by_nothing.
Qed.

Lemma moved_by_run (nv : Http.NoValue) (es : list Event) :
  forall c : RemoteDesktopClient,
    moved_by (expected_states (bound c)
                              (JS.owns (options c) "hasOwnProperty") es)
             c (run nv es c).
Proof.
  unfold run. induction es as [ | e es IH]; intros c.
  - now apply moved_by_nothing.
  - cbn [fold_left expected_states].
    eapply moved_by_trans; [apply moved_by_step | ].
    rewrite <- (bound_step nv c e), <- (options_step nv c e). apply IH.
Qed.

(** X3.  The states published during a run of calls and events, the state
    queried after it and the value held by the state channel after it are
    fixed by the events alone (the callbacks with their codes, the calls
    into the engine with the engine's reports and raises), by whether the
    handlers were bound at the start and by whether the options make
    [connect] throw: they do not depend on the state before.  Each bound
    code of the tables publishes its state; each report of the engine
    inside a call does, where the handlers are bound; each bound error
    callback publishes the reports of its disconnect and then, unless that
    raised, its error state. *)
Theorem states_follow_events_alone
        (nv : Http.NoValue) (es : list Event) (c : RemoteDesktopClient) :
  published_states (trace (run nv es c))
    = published_states (trace c)
      ++ expected_states (bound c)
                         (JS.owns (options c) "hasOwnProperty") es /\
  state (run nv es c)
    = latest_or (state c)
                (expected_states (bound c)
                                 (JS.owns (options c) "hasOwnProperty") es) /\
  Rx.bs_value (onStateChange (run nv es c))
    = latest_or (Rx.bs_value (onStateChange c))
                (expected_states (bound c)
                                 (JS.owns (options c) "hasOwnProperty") es).
Proof.
  destruct (moved_by_run nv es c) as (H1 & H2 & H3).
  split; [exact H1 | ]. split; [exact H2 | exact H3].
Qed.

Example states_of_a_failed_session :
  published_states
    (trace (run Http.OmitKey
                [Connect (mkScreen 1024 768) quiet;
                 TunnelOnStateChange (JS.Num 1);
                 ClientOnStateChange (JS.Num 3);
                 TunnelOnError
                   (JS.Num 514)
                   (mkReaction [ClientReport (JS.Num 4);
                                TunnelReport (JS.Num 2);
                                ClientReport (JS.Num 5)] false);
                 TunnelOnStateChange (JS.Num 2)]
                (constructor "ws://host/tunnel" [])))
  = [CONNECTING; CONNECTED; DISCONNECTED; TUNNEL_ERROR; DISCONNECTED].
Proof. reflexivity. Qed.

Lemma expected_states_silent (es : list Event) :
  forall b t : bool,
    forallb state_silent es = true -> expected_states b t es = [].
Proof.
  induction es as [ | e es IH]; intros b t H.
  - reflexivity.
  - simpl in H. apply andb_prop in H. destruct H as [He Hes].
    cbn [expected_states]. rewrite (IH _ _ Hes), app_nil_r.
    destruct e; try discriminate He; cbn [event_states state_silent] in *;
      try reflexivity;
      destruct (reports r); try discriminate He;
      unfold reported_states; now destruct b, t.
Qed.

(** X4.  The caller's [sendClipboard], the subscriptions, the callbacks of
    stream readers, and the calls [connect] and [disconnect] inside which
    the engine reports no state change never move the state machine: after
    any run of them the queried state and the value held by the state
    channel are as before and no state has been published. *)
Theorem only_engine_callbacks_move_the_state
        (nv : Http.NoValue) (es : list Event) (c : RemoteDesktopClient)
        (Hquiet : forallb state_silent es = true) :
  getState (run nv es c) = getState c /\
  Rx.bs_value (onStateChange (run nv es c)) = Rx.bs_value (onStateChange c) /\
  published_states (trace (run nv es c)) = published_states (trace c).
Proof.
  destruct (moved_by_run nv es c) as (H1 & H2 & H3).
  rewrite (expected_states_silent es _ _ Hquiet) in H1, H2, H3.
  rewrite app_nil_r in H1. unfold getState. repeat split; assumption.
Qed.

Lemma only_engine_callbacks_move_the_state_witness :
  forallb state_silent
          [Connect (mkScreen 1024 768) quiet; SendClipboard (JS.Str "a");
           Disconnect (mkReaction [] true); Disconnect quiet; ReaderOnEnd 3]
    = true /\
  getState (run Http.OmitKey
                [Connect (mkScreen 1024 768) quiet;
                 SendClipboard (JS.Str "a");
                 Disconnect (mkReaction [] true); Disconnect quiet;
                 ReaderOnEnd 3]
                (setState CONNECTED (constructor "ws://host/tunnel" [])))
    = getState (setState CONNECTED (constructor "ws://host/tunnel" [])).
Proof.
  split; [reflexivity | ].
  apply (only_engine_callbacks_move_the_state
           Http.OmitKey
           [Connect (mkScreen 1024 768) quiet; SendClipboard (JS.Str "a");
            Disconnect (mkReaction [] true); Disconnect quiet; ReaderOnEnd 3]
           (setState CONNECTED (constructor "ws://host/tunnel" []))).
  reflexivity.
Defined.

(** *** What the calls into the engine leave alone *)

Lemma published_clipboard_setState (s : STATE) (c : RemoteDesktopClient) :
  published_clipboard (trace (setState s c)) = published_clipboard (trace c).
Proof.
  rewrite trace_setState, published_clipboard_app. simpl. apply app_nil_r.
Qed.

Lemma published_clipboard_emit (e : Effect) (c : RemoteDesktopClient) :
  published_clipboard (trace (emit e c))
  = published_clipboard (trace c) ++ published_clipboard [e].
Proof. unfold emit. cbn [trace]. apply published_clipboard_app. Qed.

Lemma published_clipboard_StateNext (l : list STATE) :
  published_clipboard (map StateNext l) = [].
Proof. induction l as [ | s l IH]; [reflexivity | exact IH]. Qed.

(** A call into the engine, with the reports handled inside it, leaves the
    readers and the clipboard channel alone. *)
Lemma engine_call_frame (e : Effect) (r : Reaction)
      (c : RemoteDesktopClient) :
  published_clipboard [e] = [] ->
  readers (after (engine_call e r c)) = readers c /\
  onClipboard (after (engine_call e r c)) = onClipboard c /\
  published_clipboard (trace (after (engine_call e r c)))
    = published_clipboard (trace c).
Proof.
  intros He. unfold engine_call. cbn [after].
  destruct (reports_handled (reports r) (emit e c))
    as (H1 & _ & _ & _ & H5 & H6 & _).
  rewrite H1, H5, H6, published_clipboard_app,
    published_clipboard_StateNext, published_clipboard_emit, He.
  rewrite !app_nil_r. repeat split.
Qed.

Lemma disconnect_frame (r : Reaction) (c : RemoteDesktopClient) :
  readers (after (disconnect r c)) = readers c /\
  onClipboard (after (disconnect r c)) = onClipboard c /\
  published_clipboard (trace (after (disconnect r c)))
    = published_clipboard (trace c).
Proof. now apply engine_call_frame. Qed.

Lemma connect_frame (nv : Http.NoValue) (screen : Screen) (r : Reaction)
      (c : RemoteDesktopClient) :
  readers (after (connect nv screen r c)) = readers c /\
  onClipboard (after (connect nv screen r c)) = onClipboard c /\
  published_clipboard (trace (after (connect nv screen r c)))
    = published_clipboard (trace c).
Proof.
  unfold connect.
  destruct (buildConfiguration nv screen c) as [configuration | ];
    [ | repeat split].
  cbv zeta.
  pose proof (engine_call_frame (ClientConnect configuration) r c eq_refl)
    as H.
  destruct (raised _); exact H.
Qed.

Lemma handleClientError_frame (status : JS.value) (r : Reaction)
      (c : RemoteDesktopClient) :
  readers (after (handleClientError status r c)) = readers c /\
  onClipboard (after (handleClientError status r c)) = onClipboard c /\
  published_clipboard (trace (after (handleClientError status r c)))
    = published_clipboard (trace c).
Proof.
  unfold handleClientError. cbv zeta.
  pose proof (disconnect_frame r c) as H.
  destruct (raised _); [exact H | ].
  cbn [after]. now rewrite published_clipboard_setState.
Qed.

Lemma handleTunnelError_frame (status : JS.value) (r : Reaction)
      (c : RemoteDesktopClient) :
  readers (after (handleTunnelError status r c)) = readers c /\
  onClipboard (after (handleTunnelError status r c)) = onClipboard c /\
  published_clipboard (trace (after (handleTunnelError status r c)))
    = published_clipboard (trace c).
Proof.
  unfold handleTunnelError. cbv zeta.
  pose proof (disconnect_frame r c) as H.
  destruct (raised _); [exact H | ].
  cbn [after]. now rewrite published_clipboard_setState.
Qed.

(** *** Stream readers over whole runs *)

Lemma reader_data_drop_other (rs : list (stream * string))
      (st st' : stream) :
  Nat.eqb st' st = false ->
  reader_data (reader_drop rs st') st = reader_data rs st.
Proof.
  intros Hne. induction rs as [ | [st0 d0] rs IH]; simpl.
  - reflexivity.
  - destruct (Nat.eqb st0 st') eqn:E0.
    + apply Nat.eqb_eq in E0. subst st0. now rewrite Hne.
    + simpl. now rewrite IH.
Qed.

Lemma reader_data_store_other (rs : list (stream * string))
      (st st' : stream) (d : string) :
  Nat.eqb st' st = false ->
  reader_data (reader_store rs st' d) st = reader_data rs st.
Proof.
  intros Hne. unfold reader_store. simpl. rewrite Hne.
  now apply reader_data_drop_other.
Qed.

(** One call or event that does not announce [st] again changes the
    accumulator of [st] by the chunk it delivers on [st], if any. *)
Lemma reader_data_step (nv : Http.NoValue) (c : RemoteDesktopClient)
      (e : Event) (st : stream) (d : string) :
  announces st e = false ->
  reader_data (readers c) st = Some d ->
  reader_data (readers (step nv c e)) st
  = Some (d ++ String.concat "" (chunks_for st [e]))%string.
Proof.
  intros Ha Hd.
  destruct e; cbn [step chunks_for announces] in *;
    try (rewrite string_app_nil_r).
  - destruct (connect_frame nv screen r c) as [-> _]. exact Hd.
  - destruct (disconnect_frame r c) as [-> _]. exact Hd.
  - unfold sendClipboard. destruct (JS.truthy text); exact Hd.
  - unfold slot. destruct (bound c); [ | exact Hd].
    destruct (handleClientError_frame status r c) as [-> _]. exact Hd.
  - unfold slot. destruct (bound c); [ | exact Hd].
    rewrite handleClientStateChange_table.
    destruct (client_table code); exact Hd.
  - unfold slot, handleClipboard. destruct (bound c); [ | exact Hd].
    destruct (is_text mimetype); [ | exact Hd].
    cbn [readers with_readers]. now rewrite reader_data_store_other.
  - unfold slot. destruct (bound c); [ | exact Hd].
    destruct (handleTunnelError_frame status r c) as [-> _]. exact Hd.
  - unfold slot. destruct (bound c); [ | exact Hd].
    rewrite handleTunnelStateChange_table.
    destruct (tunnel_table code); exact Hd.
  - unfold ontext. destruct (Nat.eqb st0 st) eqn:E.
    + apply Nat.eqb_eq in E. subst st0. rewrite Hd.
      cbn [readers with_readers String.concat]. apply reader_data_store.
    + cbn [String.concat]. rewrite string_app_nil_r.
      destruct (reader_data (readers c) st0); [ | exact Hd].
      cbn [readers with_readers]. now rewrite reader_data_store_other.
  - unfold onend. destruct (reader_data (readers c) st0); exact Hd.
  - exact Hd.
  - exact Hd.
Qed.

Lemma chunks_for_cons (st : stream) (e : Event) (es : list Event) :
  chunks_for st (e :: es) = chunks_for st [e] ++ chunks_for st es.
Proof.
  destruct e; try reflexivity.
  simpl. destruct (Nat.eqb st0 st); reflexivity.
Qed.

Lemma concat_chunks_app (xs ys : list string) :
  String.concat "" (xs ++ ys)
  = (String.concat "" xs ++ String.concat "" ys)%string.
Proof.
  induction xs as [ | x xs IH].
  - reflexivity.
  - rewrite <- app_comm_cons, !concat_chunks_cons, IH.
    now rewrite string_app_assoc.
Qed.

Lemma reader_data_run (nv : Http.NoValue) (st : stream) (es : list Event) :
  forall (c : RemoteDesktopClient) (d : string),
    forallb (fun e => negb (announces st e)) es = true ->
    reader_data (readers c) st = Some d ->
    reader_data (readers (run nv es c)) st
    = Some (d ++ String.concat "" (chunks_for st es))%string.
Proof.
  unfold run. induction es as [ | e es IH]; intros c d Hes Hd.
  - simpl. now rewrite string_app_nil_r.
  - simpl in Hes. apply andb_prop in Hes. destruct Hes as [He Hes].
    apply negb_true_iff in He.
    cbn [fold_left].
    rewrite (IH _ _ Hes (reader_data_step nv c e st d He Hd)).
    rewrite (chunks_for_cons st e es), concat_chunks_app.
    now rewrite string_app_assoc.
Qed.

(** X5.  The text gathered for a stream is its own: through any run of
    calls and events that does not announce the stream again, chunks
    delivered on other streams, ends of streams, clipboard writes and state
    changes leave its accumulator alone, and its end publishes what was
    gathered before followed by the chunks delivered on it, in order. *)
Theorem stream_accumulators_are_isolated
        (nv : Http.NoValue) (st : stream) (es : list Event)
        (c : RemoteDesktopClient) (d : string)
        (Hsame : forallb (fun e => negb (announces st e)) es = true)
        (Hread : reader_data (readers c) st = Some d) :
  reader_data (readers (run nv es c)) st
    = Some (d ++ String.concat "" (chunks_for st es))%string /\
  trace (step nv (run nv es c) (ReaderOnEnd st))
    = trace (run nv es c)
      ++ [ClipboardNext
            (JS.Str (d ++ String.concat "" (chunks_for st es))%string)].
Proof.
  pose proof (reader_data_run nv st es c d Hsame Hread) as H.
  split; [exact H | ].
  cbn [step]. unfold onend. rewrite H. reflexivity.
Qed.

Lemma stream_accumulators_are_isolated_witness :
  forallb (fun e => negb (announces 1 e))
          [ClientOnClipboard 2 "text/html"; ReaderOnText 1 "Hel";
           ReaderOnText 2 "<b>"; ReaderOnEnd 2; ReaderOnText 1 "lo"]
    = true /\
  reader_data
    (readers (handleClipboard 1 "text/plain"
                (after (connect Http.OmitKey (mkScreen 1024 768) quiet
                                (constructor "ws://host/tunnel" []))))) 1
    = Some "" /\
  reader_data
    (readers
       (run Http.OmitKey
            [ClientOnClipboard 2 "text/html"; ReaderOnText 1 "Hel";
             ReaderOnText 2 "<b>"; ReaderOnEnd 2; ReaderOnText 1 "lo"]
            (handleClipboard 1 "text/plain"
               (after (connect Http.OmitKey (mkScreen 1024 768) quiet
                               (constructor "ws://host/tunnel" [])))))) 1
    = Some "Hello".
Proof.
  split; [reflexivity | ]. split; [reflexivity | ].
  apply (stream_accumulators_are_isolated
           Http.OmitKey 1
           [ClientOnClipboard 2 "text/html"; ReaderOnText 1 "Hel";
            ReaderOnText 2 "<b>"; ReaderOnEnd 2; ReaderOnText 1 "lo"]
           (handleClipboard 1 "text/plain"
              (after (connect Http.OmitKey (mkScreen 1024 768) quiet
                              (constructor "ws://host/tunnel" []))))
           ""); reflexivity.
Defined.

(** Chunks and then the end of the stream: one publication, and the
    accumulator stays. *)
Lemma deliver_chunks_end (st : stream) (xs : list string)
      (c : RemoteDesktopClient) (d : string) :
  reader_data (readers c) st = Some d ->
  trace (fold_left (deliver st) (map Text xs ++ [End]) c)
    = trace c ++ [ClipboardNext (JS.Str (d ++ String.concat "" xs)%string)] /\
  reader_data (readers (fold_left (deliver st) (map Text xs ++ [End]) c)) st
    = Some (d ++ String.concat "" xs)%string.
Proof.
  intros Hd.
  destruct (deliver_chunks st xs c d Hd) as (H1 & H2 & _).
  rewrite fold_left_app. cbn [fold_left deliver]. unfold onend.
  rewrite H1. unfold onClipboard_next, emit.
  cbn [trace readers with_onClipboard].
  rewrite H2. split; [reflexivity | exact H1].
Qed.

(** X6.  The end of a stream publishes the accumulator and keeps it: on a
    text stream, chunks, an end, more chunks and a second end publish first
    the concatenation of the first chunks and then the concatenation of all
    the chunks. *)
Theorem end_of_stream_keeps_the_accumulator
        (st : stream) (mimetype : string) (xs ys : list string)
        (c : RemoteDesktopClient)
        (Htext : is_text mimetype = true) :
  trace (receiveStream st mimetype
           (map Text xs ++ [End] ++ map Text ys ++ [End]) c)
  = trace c ++ [ClipboardNext (JS.Str (String.concat "" xs));
                ClipboardNext (JS.Str (String.concat "" (xs ++ ys)))].
Proof.
  unfold receiveStream, handleClipboard. rewrite Htext.
  set (c0 := with_readers (reader_store (readers c) st "") c).
  destruct (deliver_chunks_end st xs c0 "" (reader_data_store _ _ _))
    as (H1 & H2).
  simpl append in H1, H2.
  change (map Text xs ++ [End] ++ map Text ys ++ [End])
    with (map Text xs ++ ([End] ++ (map Text ys ++ [End]))).
  rewrite app_assoc, fold_left_app.
  destruct (deliver_chunks_end st ys _ _ H2) as (K1 & _).
  rewrite K1, H1, concat_chunks_app, <- app_assoc. reflexivity.
Qed.

Lemma end_of_stream_keeps_the_accumulator_witness :
  is_text "text/plain" = true /\
  trace (receiveStream 0 "text/plain"
           (map Text ["Hel"] ++ [End] ++ map Text ["lo"] ++ [End])
           (constructor "ws://host/tunnel" []))
  = [ClipboardNext (JS.Str "Hel"); ClipboardNext (JS.Str "Hello")].
Proof.
  split; [reflexivity | ].
  apply (end_of_stream_keeps_the_accumulator
           0 "text/plain" ["Hel"] ["lo"]
           (constructor "ws://host/tunnel" [])).
  reflexivity.
Defined.

Lemma prefix_iff_append (p m : string) :
  String.prefix p m = true <-> exists rest : string, m = (p ++ rest)%string.
Proof.
  revert m. induction p as [ | a p IH]; intros m.
  - split; [intros _; now exists m | intros _; now destruct m].
  - destruct m as [ | b m]; cbn [String.prefix].
    + split; [discriminate | intros [rest H]; discriminate H].
    + destruct (ascii_dec a b) as [-> | Hab].
      * rewrite IH. split; intros [rest H]; exists rest.
        -- now rewrite H.
        -- simpl in H. now inversion H.
      * split; [discriminate | ].
        intros [rest H]. simpl in H. inversion H as [[Hb Hm]].
        exfalso. apply Hab. now symmetry.
Qed.

(** X7.  The MIME types whose streams are read are exactly the strings
    that start with the five characters [text/]: the test is anchored at
    the start and tells upper case from lower case. *)
Theorem text_streams_are_the_text_prefixed (mimetype : string) :
  (is_text mimetype = true <->
   exists rest : string, mimetype = ("text/" ++ rest)%string) /\
  (forall (st : stream) (c : RemoteDesktopClient),
      handleClipboard st mimetype c =
      if is_text mimetype
      then with_readers (reader_store (readers c) st "") c
      else c) /\
  is_text "text/" = true /\
  is_text "text" = false /\
  is_text "TEXT/plain" = false /\
  is_text " text/plain" = false /\
  is_text "application/text/plain" = false.
Proof.
  split; [ | repeat split].
  unfold is_text. apply prefix_iff_append.
Qed.

(** *** The shape of the trace *)

Lemma is_error_table (r : Report) (s : STATE) :
  report_state r = Some s -> is_error s = false.
Proof.
  destruct r as [code | code]; unfold report_state, client_table,
    tunnel_table;
    repeat match goal with
           | |- context [if ?b then _ else _] => destruct b
           end;
    intros H; inversion H; reflexivity.
Qed.

Lemma reported_states_plain (b : bool) (rs : list Report) :
  Forall (fun s => is_error s = false) (reported_states b rs).
Proof.
  unfold reported_states. destruct b; [ | constructor].
  induction rs as [ | r rs IH]; cbn [flat_map].
  - constructor.
  - destruct (report_state r) as [s | ] eqn:E; [ | exact IH].
    constructor; [now apply (is_error_table r) | exact IH].
Qed.

Lemma step_effects_setState (s : STATE) (c : RemoteDesktopClient) :
  is_error s = false ->
  exists delta : list Effect,
    trace (setState s c) = trace c ++ delta /\ step_effects delta.
Proof.
  intros H. exists [StateNext s]. split; [apply trace_setState | ].
  now constructor.
Qed.

Lemma step_effects_nothing (c c' : RemoteDesktopClient) :
  trace c' = trace c ->
  exists delta : list Effect,
    trace c' = trace c ++ delta /\ step_effects delta.
Proof.
  intros H. exists []. split; [now rewrite app_nil_r | constructor].
Qed.

Lemma trace_engine_call (e : Effect) (r : Reaction)
      (c : RemoteDesktopClient) :
  trace (after (engine_call e r c))
  = trace c ++ e :: map StateNext (reported_states (bound c) (reports r)).
Proof.
  unfold engine_call. cbn [after].
  destruct (reports_handled (reports r) (emit e c)) as (H1 & _).
  rewrite H1. unfold emit. cbn [trace bound].
  now rewrite <- app_assoc.
Qed.

Lemma step_effects_error (s : STATE) (r : Reaction)
      (c : RemoteDesktopClient) :
  exists delta : list Effect,
    trace (after (let o := disconnect r c in
                  if raised o then o
                  else mkOutcome false (setState s (after o))))
    = trace c ++ delta /\
    step_effects delta.
Proof.
  cbv zeta. unfold disconnect.
  pose proof (trace_engine_call ClientDisconnect r c) as H.
  pose proof (reported_states_plain (bound c) (reports r)) as Hp.
  destruct (raised (engine_call ClientDisconnect r c)).
  - eexists. split; [exact H | now constructor].
  - cbn [after]. rewrite trace_setState, H, <- app_assoc.
    eexists. split; [reflexivity | ].
    cbn [app]. now constructor.
Qed.

(** One call or event extends the trace, by one of a few shapes. *)
Lemma step_extends_trace (nv : Http.NoValue) (c : RemoteDesktopClient)
      (e : Event) :
  exists delta : list Effect,
    trace (step nv c e) = trace c ++ delta /\ step_effects delta.
Proof.
  destruct e; cbn [step].
  - destruct (connect_cases nv screen r c)
      as [[_ ->] | [_ (configuration & _ & ->)]]; cbn [after].
    + now apply step_effects_nothing.
    + pose proof (trace_engine_call (ClientConnect configuration) r c)
        as H.
      unfold engine_call in H. cbn [after] in H.
      eexists. split; [cbn [trace with_bound]; exact H | ].
      constructor. apply reported_states_plain.
  - eexists. split; [apply trace_engine_call | ].
    constructor. apply reported_states_plain.
  - unfold sendClipboard. destruct (JS.truthy text) eqn:Ht.
    + exists [ClipboardNext text; ClientSetClipboard text]. split.
      * unfold onClipboard_next, emit. cbn [trace].
        now rewrite <- app_assoc.
      * now constructor.
    + now apply step_effects_nothing.
  - unfold slot. destruct (bound c); [ | now apply step_effects_nothing].
    apply (step_effects_error CLIENT_ERROR).
  - unfold slot. destruct (bound c); [ | now apply step_effects_nothing].
    rewrite handleClientStateChange_table. unfold client_table.
    destruct (JS.strict_eq code (JS.Num 0));
      [now apply step_effects_setState | ].
    destruct (JS.strict_eq code (JS.Num 2));
      [now apply step_effects_setState | ].
    destruct (JS.strict_eq code (JS.Num 3));
      [now apply step_effects_setState | ].
    now apply step_effects_nothing.
  - unfold slot, handleClipboard.
    destruct (bound c); [ | now apply step_effects_nothing].
    destruct (is_text mimetype); now apply step_effects_nothing.
  - unfold slot. destruct (bound c); [ | now apply step_effects_nothing].
    apply (step_effects_error TUNNEL_ERROR).
  - unfold slot. destruct (bound c); [ | now apply step_effects_nothing].
    rewrite handleTunnelStateChange_table. unfold tunnel_table.
    destruct (JS.strict_eq code (JS.Num 1));
      [now apply step_effects_setState | ].
    destruct (JS.strict_eq code (JS.Num 2));
      [now apply step_effects_setState | ].
    now apply step_effects_nothing.
  - unfold ontext. destruct (reader_data (readers c) st);
      now apply step_effects_nothing.
  - unfold onend. destruct (reader_data (readers c) st) as [data | ];
      [ | now apply step_effects_nothing].
    exists [ClipboardNext (JS.Str data)]. split; [reflexivity | constructor].
  - now apply step_effects_nothing.
  - now apply step_effects_nothing.
Qed.

(** A property of traces kept by every shape is kept by every run. *)
Lemma run_trace_ind (P : list Effect -> Prop) :
  (forall t delta, P t -> step_effects delta -> P (t ++ delta)) ->
  forall (nv : Http.NoValue) (es : list Event) (c : RemoteDesktopClient),
    P (trace c) -> P (trace (run nv es c)).
Proof.
  intros Hstep nv es. unfold run.
  induction es as [ | e es IH]; intros c Hc.
  - exact Hc.
  - cbn [fold_left]. apply IH.
    destruct (step_extends_trace nv c e) as (delta & -> & Hd).
    now apply Hstep.
Qed.

Lemma effect_before_app (p : option Effect) (t u : list Effect) :
  effect_before p (t ++ u) = effect_before (effect_before p t) u.
Proof.
  unfold effect_before. rewrite rev_app_distr.
  destruct (rev u); reflexivity.
Qed.

Lemma adjacent_app (ok : option Effect -> Effect -> bool)
      (t u : list Effect) :
  forall p : option Effect,
    adjacent ok p (t ++ u)
    = adjacent ok p t && adjacent ok (effect_before p t) u.
Proof.
  induction t as [ | e t IH]; intros p.
  - reflexivity.
  - cbn [app adjacent]. rewrite IH, andb_assoc.
    change (e :: t) with ([e] ++ t). now rewrite effect_before_app.
Qed.

(** What [adjacent] says of one position of the trace. *)
Lemma adjacent_at (ok : option Effect -> Effect -> bool)
      (p : option Effect) (pre post : list Effect) (e : Effect) :
  adjacent ok p (pre ++ e :: post) = true ->
  ok (effect_before p pre) e = true.
Proof.
  rewrite adjacent_app. cbn [adjacent]. intros H.
  apply andb_prop in H. destruct H as [_ H].
  apply andb_prop in H. now destruct H.
Qed.

Lemma effect_before_Some (pre : list Effect) (a : Effect) :
  effect_before None pre = Some a -> exists pre', pre = pre' ++ [a].
Proof.
  unfold effect_before. destruct (rev pre) as [ | x l] eqn:E; intros H.
  - discriminate.
  - inversion H; subst x. exists (rev l).
    rewrite <- (rev_involutive pre), E. reflexivity.
Qed.

Lemma adjacent_run (ok : option Effect -> Effect -> bool) :
  (forall delta p, step_effects delta -> adjacent ok p delta = true) ->
  forall (nv : Http.NoValue) (es : list Event) (c : RemoteDesktopClient),
    adjacent ok None (trace c) = true ->
    adjacent ok None (trace (run nv es c)) = true.
Proof.
  intros Hok nv es c.
  apply (run_trace_ind (fun t => adjacent ok None t = true)).
  intros t delta Ht Hd. rewrite adjacent_app, Ht. now apply Hok.
Qed.

Lemma armed_after_app (a : bool) (t u : list Effect) :
  armed_after a (t ++ u) = armed_after (armed_after a t) u.
Proof. unfold armed_after. apply fold_left_app. Qed.

Lemma errors_armed_app (t u : list Effect) :
  forall a : bool,
    errors_armed a (t ++ u)
    = errors_armed a t && errors_armed (armed_after a t) u.
Proof.
  induction t as [ | e t IH]; intros a.
  - reflexivity.
  - cbn [app errors_armed]. rewrite IH, andb_assoc. reflexivity.
Qed.

(** States other than the error states neither need nor spend the arming. *)
Lemma errors_armed_plain (states : list STATE) (u : list Effect) :
  Forall (fun s => is_error s = false) states ->
  forall a : bool,
    errors_armed a (map StateNext states ++ u) = errors_armed a u.
Proof.
  intros H. induction H as [ | s states Hs _ IH]; intros a.
  - reflexivity.
  - cbn [map app errors_armed arm]. rewrite Hs. cbn [negb andb].
    rewrite andb_true_r. apply IH.
Qed.

Lemma errors_armed_step (delta : list Effect) :
  step_effects delta -> forall a : bool, errors_armed a delta = true.
Proof.
  intros Hd a. destruct Hd as [ | cfg states H | states H | states s H
                               | s H | v H | data ].
  - reflexivity.
  - cbn [errors_armed arm andb].
    rewrite <- (app_nil_r (map StateNext states)).
    now rewrite errors_armed_plain.
  - cbn [errors_armed arm andb].
    rewrite <- (app_nil_r (map StateNext states)).
    now rewrite errors_armed_plain.
  - cbn [errors_armed arm andb]. rewrite errors_armed_plain by exact H.
    cbn [errors_armed]. now destruct (is_error s).
  - cbn [errors_armed]. now rewrite H.
  - reflexivity.
  - reflexivity.
Qed.

(** Where the reading of a trace ends armed, the trace ends with the
    engine's disconnect and states other than the error states. *)
Lemma armed_after_true (pre : list Effect) :
  armed_after false pre = true ->
  exists (pre' : list Effect) (states : list STATE),
    pre = pre' ++ ClientDisconnect :: map StateNext states /\
    Forall (fun s => is_error s = false) states.
Proof.
  induction pre as [ | x pre IH] using rev_ind; intros H.
  - discriminate H.
  - rewrite armed_after_app in H. cbn [armed_after fold_left] in H.
    destruct x as [s | v | cfg | | v]; cbn [arm] in H;
      try discriminate H.
    + apply andb_prop in H. destruct H as [Ha Hs].
      apply negb_true_iff in Hs.
      destruct (IH Ha) as (pre' & states & -> & Hp).
      exists pre', (states ++ [s]). split.
      * rewrite map_app, <- app_assoc. reflexivity.
      * apply Forall_app. split; [exact Hp | now constructor].
    + exists pre, []. split; [reflexivity | constructor].
Qed.

Lemma errors_armed_at (pre post : list Effect) (s : STATE) :
  is_error s = true ->
  errors_armed false (pre ++ StateNext s :: post) = true ->
  armed_after false pre = true.
Proof.
  intros Hs H. rewrite errors_armed_app in H.
  apply andb_prop in H. destruct H as [_ H].
  cbn [errors_armed] in H. rewrite Hs in H.
  apply andb_prop in H. now destruct H.
Qed.

(** X8.  In the trace of an instance, after any run of calls and events
    from its construction, an error state is published only after the
    engine has been told to disconnect: before the publication of
    ClientError or TunnelError stands the call of the disconnect, and
    between the two only publications of states other than the error
    states, those the engine reports while it disconnects. *)
Theorem error_states_follow_a_disconnect
        (nv : Http.NoValue) (url : string) (opts : JS.object)
        (es : list Event) (pre post : list Effect) (s : STATE)
        (Herror : s = CLIENT_ERROR \/ s = TUNNEL_ERROR)
        (Hat : trace (run nv es (constructor url opts))
               = pre ++ StateNext s :: post) :
  exists (pre' : list Effect) (states : list STATE),
    pre = pre' ++ ClientDisconnect :: map StateNext states /\
    Forall (fun s' => s' <> CLIENT_ERROR /\ s' <> TUNNEL_ERROR) states.
Proof.
  assert (errors_armed false (trace (run nv es (constructor url opts)))
          = true) as H.
  { apply (run_trace_ind (fun t => errors_armed false t = true));
      [ | reflexivity].
    intros t delta Ht Hd. rewrite errors_armed_app, Ht.
    now apply errors_armed_step. }
  rewrite Hat in H.
  assert (is_error s = true) as Hs by (destruct Herror; now subst s).
  destruct (armed_after_true pre (errors_armed_at pre post s Hs H))
    as (pre' & states & Hpre & Hp).
  exists pre', states. split; [exact Hpre | ].
  eapply Forall_impl; [ | exact Hp].
  intros s' Hs'. split; intros ->; discriminate Hs'.
Qed.

Lemma error_states_follow_a_disconnect_witness :
  (TUNNEL_ERROR = CLIENT_ERROR \/ TUNNEL_ERROR = TUNNEL_ERROR) /\
  trace (run Http.OmitKey
             [Connect (mkScreen 1024 768) quiet;
              TunnelOnError
                (JS.Num 514)
                (mkReaction [ClientReport (JS.Num 4);
                             TunnelReport (JS.Num 2);
                             ClientReport (JS.Num 5)] false);
              TunnelOnStateChange (JS.Num 2)]
             (constructor "ws://host/tunnel" []))
  = (trace (run Http.OmitKey [Connect (mkScreen 1024 768) quiet]
                (constructor "ws://host/tunnel" []))
     ++ [ClientDisconnect; StateNext DISCONNECTED])
    ++ StateNext TUNNEL_ERROR :: [StateNext DISCONNECTED] /\
  exists (pre' : list Effect) (states : list STATE),
    trace (run Http.OmitKey [Connect (mkScreen 1024 768) quiet]
               (constructor "ws://host/tunnel" []))
    ++ [ClientDisconnect; StateNext DISCONNECTED]
    = pre' ++ ClientDisconnect :: map StateNext states /\
    Forall (fun s' => s' <> CLIENT_ERROR /\ s' <> TUNNEL_ERROR) states.
Proof.
  split; [now right | ]. split; [reflexivity | ].
  apply (error_states_follow_a_disconnect
           Http.OmitKey "ws://host/tunnel" []
           [Connect (mkScreen 1024 768) quiet;
            TunnelOnError
              (JS.Num 514)
              (mkReaction [ClientReport (JS.Num 4);
                           TunnelReport (JS.Num 2);
                           ClientReport (JS.Num 5)] false);
            TunnelOnStateChange (JS.Num 2)]
           _ [StateNext DISCONNECTED] TUNNEL_ERROR);
    [now right | reflexivity].
Defined.

Lemma strict_eq_refl (v : JS.value) : JS.strict_eq v v = true.
Proof.
  destruct v as [ | | b | n | s]; simpl; try reflexivity.
  - now destruct b.
  - apply Z.eqb_refl.
  - apply String.eqb_refl.
Qed.

Lemma strict_eq_eq (a b : JS.value) : JS.strict_eq a b = true -> a = b.
Proof.
  destruct a as [ | | x | x | x], b as [ | | y | y | y]; simpl;
    try discriminate; try reflexivity; intros H.
  - apply Bool.eqb_prop in H. now subst.
  - apply Z.eqb_eq in H. now subst.
  - apply String.eqb_eq in H. now subst.
Qed.

Lemma write_after_echo_states (states : list STATE) :
  forall p : option Effect,
    adjacent write_after_echo p (map StateNext states) = true.
Proof.
  induction states as [ | s states IH]; intros p.
  - reflexivity.
  - cbn [map adjacent write_after_echo andb]. apply IH.
Qed.

Lemma write_after_echo_step (delta : list Effect) :
  step_effects delta ->
  forall p : option Effect, adjacent write_after_echo p delta = true.
Proof.
  intros Hd p. destruct Hd as [ | cfg states H | states H | states s H
                               | s H | v H | data ].
  - reflexivity.
  - cbn [adjacent write_after_echo andb]. apply write_after_echo_states.
  - cbn [adjacent write_after_echo andb]. apply write_after_echo_states.
  - cbn [adjacent write_after_echo andb].
    rewrite adjacent_app, write_after_echo_states. reflexivity.
  - reflexivity.
  - cbn [adjacent write_after_echo]. now rewrite strict_eq_refl.
  - reflexivity.
Qed.

(** X9.  In the trace of an instance, after any run of calls and events
    from its construction, the engine is handed a clipboard text only right
    after the same text has been published on the clipboard channel. *)
Theorem engine_clipboard_follows_the_echo
        (nv : Http.NoValue) (url : string) (opts : JS.object)
        (es : list Event) (pre post : list Effect) (v : JS.value)
        (Hat : trace (run nv es (constructor url opts))
               = pre ++ ClientSetClipboard v :: post) :
  exists pre' : list Effect, pre = pre' ++ [ClipboardNext v].
Proof.
  assert (adjacent write_after_echo None
                   (trace (run nv es (constructor url opts))) = true) as H.
  { apply adjacent_run; [ | reflexivity].
    intros delta p Hd. now apply write_after_echo_step. }
  rewrite Hat in H. apply adjacent_at in H.
  apply effect_before_Some. cbn [write_after_echo] in H.
  destruct (effect_before None pre) as [[ | w | | | ] | ];
    try discriminate.
  apply strict_eq_eq in H. now subst.
Qed.

Lemma engine_clipboard_follows_the_echo_witness :
  trace (run Http.OmitKey
             [ReaderOnEnd 0; SendClipboard (JS.Str "a"); Disconnect quiet]
             (constructor "ws://host/tunnel" []))
  = [ClipboardNext (JS.Str "a")]
    ++ ClientSetClipboard (JS.Str "a") :: [ClientDisconnect] /\
  exists pre' : list Effect,
    [ClipboardNext (JS.Str "a")] = pre' ++ [ClipboardNext (JS.Str "a")].
Proof.
  split; [reflexivity | ].
  apply (engine_clipboard_follows_the_echo
           Http.OmitKey "ws://host/tunnel" []
           [ReaderOnEnd 0; SendClipboard (JS.Str "a"); Disconnect quiet]
           _ [ClientDisconnect] (JS.Str "a")).
  reflexivity.
Defined.

(** X10.  Whatever the calls and events, a payload published on the
    clipboard channel is a string or a truthy value: [undefined], [null],
    [false] and 0 are never published, and the only falsy payload is the
    empty string of a text stream that ended without text. *)
Theorem clipboard_payloads_are_text_or_truthy
        (nv : Http.NoValue) (url : string) (opts : JS.object)
        (es : list Event) :
  Forall (fun v => text_or_truthy v = true)
         (published_clipboard (trace (run nv es (constructor url opts)))) /\
  published_clipboard
    (trace (receiveStream 0 "text/plain" [End] (constructor url opts)))
    = [JS.Str ""].
Proof.
  split; [ | reflexivity].
  apply (run_trace_ind
           (fun t => Forall (fun v => text_or_truthy v = true)
                            (published_clipboard t)));
    [ | constructor].
  intros t delta Ht Hd. rewrite published_clipboard_app.
  apply Forall_app. split; [exact Ht | ].
  destruct Hd as [ | cfg states H | states H | states s H
                  | s H | v H | data ];
    cbn [published_clipboard flat_map app];
    rewrite ?published_clipboard_app, ?published_clipboard_StateNext;
    cbn [published_clipboard flat_map app]; repeat constructor.
  destruct v; try discriminate; try reflexivity; assumption.
Qed.

(** *** The options *)


Lemma keys_set_old (o : JS.object) (k : string) (v : JS.value) :
  In k (map fst o) -> map fst (JS.set o k v) = map fst o.
Proof.
  induction o as [ | [k0 v0] o IH]; simpl; intros H.
  - contradiction.
  - destruct (String.eqb_spec k0 k) as [-> | Hk0]; simpl.
    + reflexivity.
    + destruct H as [H | H]; [contradiction | now rewrite IH].
Qed.

Lemma keys_set_new (o : JS.object) (k : string) (v : JS.value) :
  ~ In k (map fst o) -> map fst (JS.set o k v) = map fst o ++ [k].
Proof.
  induction o as [ | [k0 v0] o IH]; simpl; intros H.
  - reflexivity.
  - destruct (String.eqb_spec k0 k) as [-> | Hk0]; simpl.
    + exfalso. apply H. now left.
    + rewrite IH; [reflexivity | ]. intros Hin. apply H. now right.
Qed.

(** Assigning properties keeps the keys there are, in place, and puts the
    new ones after them. *)
Lemma keys_assign (l : JS.object) :
  forall base : JS.object,
    NoDup (map fst base) ->
    exists extra : list string,
      map fst (fold_left (fun acc kv => JS.set acc (fst kv) (snd kv)) l base)
        = map fst base ++ extra /\
      NoDup (map fst base ++ extra) /\
      (forall k, In k extra <-> In k (map fst l) /\ ~ In k (map fst base)).
Proof.
  induction l as [ | [k0 v0] l IH]; intros base Hnd.
  - exists []. rewrite app_nil_r. repeat split; try assumption.
    + contradiction.
    + intros [H _]. contradiction.
  - cbn [fold_left fst snd].
    destruct (in_dec string_dec k0 (map fst base)) as [Hin | Hnot].
    + pose proof (keys_set_old base k0 v0 Hin) as Hk.
      destruct (IH (JS.set base k0 v0)) as (extra & H1 & H2 & H3).
      { now rewrite Hk. }
      rewrite Hk in H1, H2, H3.
      exists extra. split; [exact H1 | ]. split; [exact H2 | ].
      intros k. split.
      * intros H. apply H3 in H. destruct H as [Hl Hb].
        split; [right; exact Hl | exact Hb].
      * intros [[Heq | Hl] Hb].
        -- subst k. contradiction.
        -- apply H3. now split.
    + pose proof (keys_set_new base k0 v0 Hnot) as Hk.
      destruct (IH (JS.set base k0 v0)) as (extra & H1 & H2 & H3).
      { rewrite Hk. apply NoDup_app; [exact Hnd | repeat constructor; tauto | ].
        intros a Ha [<- | []]. contradiction. }
      rewrite Hk in H1, H2, H3. rewrite <- app_assoc in H1, H2.
      exists (k0 :: extra). split; [exact H1 | ]. split; [exact H2 | ].
      intros k. split.
      * intros [<- | H].
        -- split; [now left | exact Hnot].
        -- apply H3 in H. destruct H as [Hl Hb].
           split; [right; exact Hl | ].
           intros Hin. apply Hb. apply in_or_app. now left.
      * intros [[Heq | Hl] Hb]; [now left | ].
        destruct (string_dec k0 k) as [-> | Hne]; [now left | ].
        right. apply H3. split; [exact Hl | ].
        intros Hin. apply in_app_or in Hin.
        destruct Hin as [Hin | [Heq | []]]; contradiction.
Qed.

Lemma named_properties_keys (o : JS.object) :
  map fst (JS.named_properties o) = filter named_key (map fst o).
Proof.
  unfold named_key. induction o as [ | [k v] o IH]; simpl.
  - reflexivity.
  - destruct (JS.array_index k); simpl; now rewrite IH.
Qed.

Lemma insert_index_keys (e : N * (string * JS.value))
      (l : list (N * (string * JS.value))) (k : string) :
  In k (map fst (map snd (JS.insert_index e l)))
  <-> fst (snd e) = k \/ In k (map fst (map snd l)).
Proof.
  assert (Permutation (map fst (map snd (JS.insert_index e l)))
                      (map fst (map snd (e :: l)))) as P
      by apply Permutation_map, Permutation_map, insert_index_perm.
  split; intros H.
  - apply (Permutation_in _ P) in H. exact H.
  - apply (Permutation_in _ (Permutation_sym P)). exact H.
Qed.

Lemma index_properties_keys (o : JS.object) (k : string) :
  In k (map fst (map snd (JS.index_properties o)))
  <-> In k (map fst o) /\ named_key k = false.
Proof.
  unfold named_key. induction o as [ | [k0 v0] o IH]; simpl.
  - tauto.
  - destruct (JS.array_index k0) as [n | ] eqn:E0.
    + rewrite insert_index_keys, IH. cbn [fst snd]. split.
      * intros [<- | [H1 H2]]; [ | tauto]. rewrite E0. tauto.
      * tauto.
    + rewrite IH. split; [tauto | ].
      intros [[<- | H1] H2]; [ | tauto]. rewrite E0 in H2. discriminate.
Qed.

(** X12.  The keys of a configuration are enumerated in this order: first
    the caller's keys that are array indices, then the five defaults ID,
    WIDTH, HEIGHT, AUDIO and IMAGE, always all five and in this order, then
    the caller's other keys that are none of the five.  A caller's option
    named like a default changes its value and not its place. *)
Theorem configuration_keys_order
        (screen : Screen) (c : RemoteDesktopClient) :
  exists indices extra : list string,
    map fst (JS.entries (mergedOptions screen c))
      = indices ++ ["ID"; "WIDTH"; "HEIGHT"; "AUDIO"; "IMAGE"] ++ extra /\
    (forall k : string,
        In k indices <->
        In k (map fst (options c)) /\ named_key k = false) /\
    (forall k : string,
        In k extra <->
        (In k (map fst (options c)) /\
         ~ In k ["ID"; "WIDTH"; "HEIGHT"; "AUDIO"; "IMAGE"]) /\
        named_key k = true).
Proof.
  unfold mergedOptions, JS.spread.
  destruct (keys_assign (JS.entries (options c))
                        (defaults (calculateDimensions screen)))
    as (extra & H1 & H2 & H3).
  { simpl. repeat constructor; simpl; intuition discriminate. }
  set (merged := fold_left _ _ _) in *.
  assert (forall k, In k (map fst (JS.entries (options c)))
                    <-> In k (map fst (options c))) as Hperm.
  { intros k. split; apply Permutation_in, Permutation_map.
    - apply entries_perm.
    - apply Permutation_sym, entries_perm. }
  exists (map fst (map snd (JS.index_properties merged))),
         (filter named_key extra).
  split; [ | split].
  - unfold JS.entries. rewrite map_app, named_properties_keys, H1.
    rewrite filter_app. reflexivity.
  - intros k. rewrite index_properties_keys, H1. split.
    + intros [Hin Hk]. split; [ | exact Hk].
      apply in_app_or in Hin. destruct Hin as [Hin | Hin].
      * simpl in Hin.
        destruct Hin as [<- | [<- | [<- | [<- | [<- | []]]]]];
          discriminate Hk.
      * apply H3 in Hin. apply Hperm. tauto.
    + intros [Hin Hk]. split; [ | exact Hk].
      apply in_or_app. right. apply H3. split; [now apply Hperm | ].
      simpl. intros [<- | [<- | [<- | [<- | [<- | []]]]]]; discriminate Hk.
  - intros k. rewrite filter_In, H3, Hperm. reflexivity.
Qed.

Example configuration_keys_order_run :
  map fst (JS.entries
             (mergedOptions (mkScreen 1024 768)
                (constructor "ws://host/tunnel"
                   [("port", JS.Num 3389); ("HEIGHT", JS.Num 600);
                    ("5", JS.Str "x"); ("host", JS.Str "h")])))
  = ["5"; "ID"; "WIDTH"; "HEIGHT"; "AUDIO"; "IMAGE"; "port"; "host"].
Proof. reflexivity. Qed.

(** *** Querying the state *)

(** X13.  [isState] answers true for exactly one state, the current one:
    the seven string constants of [STATE] are pairwise distinct. *)
Theorem isState_tells_the_current_state
        (s : STATE) (c : RemoteDesktopClient) :
  isState s c = true <-> s = getState c.
Proof.
  unfold isState, getState, STATE_eqb. split.
  - intros H. apply String.eqb_eq in H.
    destruct s, (state c); simpl in H; try reflexivity; discriminate H.
  - intros ->. apply String.eqb_refl.
Qed.

(** *** The clipboard channel without inbound streams *)

Lemma unread_step (nv : Http.NoValue) (c : RemoteDesktopClient)
      (e : Event) :
  readers c = [] -> is_announcement e = false ->
  readers (step nv c e) = [] /\
  published_clipboard (trace (step nv c e))
  = published_clipboard (trace c) ++ sent_payloads [e].
Proof.
  intros Hr He.
  assert (published_clipboard (trace c)
          = published_clipboard (trace c) ++ []) as Hnil
      by (now rewrite app_nil_r).
  destruct e; try discriminate He; cbn [step sent_payloads flat_map].
  - destruct (connect_frame nv screen r c) as (-> & _ & ->).
    split; [exact Hr | exact Hnil].
  - destruct (disconnect_frame r c) as (-> & _ & ->).
    split; [exact Hr | exact Hnil].
  - unfold sendClipboard. destruct (JS.truthy text).
    + split; [exact Hr | ].
      rewrite published_clipboard_emit. unfold onClipboard_next.
      rewrite published_clipboard_emit. cbn [trace with_onClipboard].
      simpl. now rewrite !app_nil_r.
    + split; [exact Hr | exact Hnil].
  - unfold slot. destruct (bound c); [ | split; [exact Hr | exact Hnil]].
    destruct (handleClientError_frame status r c) as (-> & _ & ->).
    split; [exact Hr | exact Hnil].
  - unfold slot. destruct (bound c); [ | split; [exact Hr | exact Hnil]].
    rewrite handleClientStateChange_table.
    destruct (client_table code); [ | split; [exact Hr | exact Hnil]].
    rewrite published_clipboard_setState. split; [exact Hr | exact Hnil].
  - unfold slot. destruct (bound c); [ | split; [exact Hr | exact Hnil]].
    destruct (handleTunnelError_frame status r c) as (-> & _ & ->).
    split; [exact Hr | exact Hnil].
  - unfold slot. destruct (bound c); [ | split; [exact Hr | exact Hnil]].
    rewrite handleTunnelStateChange_table.
    destruct (tunnel_table code); [ | split; [exact Hr | exact Hnil]].
    rewrite published_clipboard_setState. split; [exact Hr | exact Hnil].
  - unfold ontext. rewrite Hr. split; [exact Hr | exact Hnil].
  - unfold onend. rewrite Hr. split; [exact Hr | exact Hnil].
  - split; [exact Hr | exact Hnil].
  - split; [exact Hr | exact Hnil].
Qed.

(** X14.  While no stream has been announced to an instance, the clipboard
    channel carries the caller's own texts and nothing else: through any run
    without an announcement, the payloads published are exactly the truthy
    arguments of the [sendClipboard] calls, in call order, and reader
    callbacks for streams that were never announced publish nothing. *)
Theorem clipboard_without_streams_is_the_echo
        (nv : Http.NoValue) (es : list Event) (c : RemoteDesktopClient)
        (Hunread : readers c = [])
        (Hquiet : forallb (fun e => negb (is_announcement e)) es = true) :
  readers (run nv es c) = [] /\
  published_clipboard (trace (run nv es c))
    = published_clipboard (trace c) ++ sent_payloads es.
Proof.
  unfold run. revert c Hunread.
  induction es as [ | e es IH]; intros c Hunread.
  - simpl. now rewrite app_nil_r.
  - simpl in Hquiet. apply andb_prop in Hquiet.
    destruct Hquiet as [He Hes]. apply negb_true_iff in He.
    destruct (unread_step nv c e Hunread He) as [H1 H2].
    cbn [fold_left]. destruct (IH Hes _ H1) as [K1 K2].
    split; [exact K1 | ]. rewrite K2, H2, <- app_assoc.
    unfold sent_payloads. cbn [flat_map]. now rewrite app_nil_r.
Qed.

Lemma clipboard_without_streams_is_the_echo_witness :
  readers (constructor "ws://host/tunnel" []) = [] /\
  forallb (fun e => negb (is_announcement e))
          [SendClipboard (JS.Str "a"); ReaderOnText 4 "lost"; ReaderOnEnd 4;
           SendClipboard (JS.Str ""); SendClipboard (JS.Num 7)]
    = true /\
  published_clipboard
    (trace (run Http.OmitKey
                [SendClipboard (JS.Str "a"); ReaderOnText 4 "lost";
                 ReaderOnEnd 4; SendClipboard (JS.Str "");
                 SendClipboard (JS.Num 7)]
                (constructor "ws://host/tunnel" [])))
    = [JS.Str "a"; JS.Num 7].
Proof.
  split; [reflexivity | ]. split; [reflexivity | ].
  apply (clipboard_without_streams_is_the_echo
           Http.OmitKey
           [SendClipboard (JS.Str "a"); ReaderOnText 4 "lost"; ReaderOnEnd 4;
            SendClipboard (JS.Str ""); SendClipboard (JS.Num 7)]
           (constructor "ws://host/tunnel" [])); reflexivity.
Defined.
